(** * NeurIPS paper harvester and annotator: a shallow embedding

    The repository has two scripts that share one metadata file:

    - [scrapper.py] crawls item pages, downloads the artifact of each and
      appends one record per item to [NeurIPS_Papers/metadata.json];
    - [annotator.py] reads that file back, asks a remote classifier for a
      label for every record that has none, and rewrites the file.

    Both are embedded here as state-and-exception passing functions over
    one model of the file system.  What the scripts get from outside (HTTP
    answers, the parsed HTML, the PDF text layer, the classifier, the clock)
    is a field of a [World] record, and what they do to the outside (files
    written, lines printed, calls made, time slept) is recorded in the state.

    Of [scrapper.py], [main] and [extract_year_from_url], which pick the
    year pages to crawl, are not embedded; the crawl of one year page,
    [process_year], is, with its pool of threads run by a single worker. *)

From Stdlib Require Import ZArith Ascii String List Lia DecimalString Sorted.
From stdpp Require Import base option list gmap strings.

Local Open Scope Z_scope.
Local Open Scope stdpp_scope.

(** ** Python strings

    A [string] stands for a Python [str] whose code points are below 256. *)

Module PyStr.

(** [str.isspace] on one code point below 256. *)
Definition isspace (c : ascii) : bool :=
  let n := N_of_ascii c in
  ((9 <=? n) && (n <=? 13) || (28 <=? n) && (n <=? 32)
   || (n =? 133) || (n =? 160))%N.

Fixpoint lstrip (s : string) : string :=
  match s with
  | EmptyString => EmptyString
  | String c s' => if isspace c then lstrip s' else s
  end.

(** [rstrip] keeps a character when something that is not white space
    follows it, or when it is not white space itself. *)
Fixpoint rstrip (s : string) : string :=
  match s with
  | EmptyString => EmptyString
  | String c s' =>
      match rstrip s' with
      | EmptyString => if isspace c then EmptyString else String c EmptyString
      | r => String c r
      end
  end.

(** [s.strip()] *)
Definition strip (s : string) : string := rstrip (lstrip s).

(** [s.startswith(p)] *)
Fixpoint startswith (p s : string) : bool :=
  match p, s with
  | EmptyString, _ => true
  | String a p', String b s' => Ascii.eqb a b && startswith p' s'
  | String _ _, EmptyString => false
  end.

(** [p in s] *)
Fixpoint contains (p s : string) : bool :=
  startswith p s ||
  match s with
  | EmptyString => false
  | String _ s' => contains p s'
  end.

(** [s.endswith("/")] *)
Fixpoint ends_with_slash (s : string) : bool :=
  match s with
  | EmptyString => false
  | String c EmptyString => Ascii.eqb c "/"
  | String _ s' => ends_with_slash s'
  end.

(** [s.split("/")[-1]]: what follows the last slash, the whole of [s]
    when it has none.  [cur] is the segment read so far. *)
Fixpoint last_segment_from (cur s : string) : string :=
  match s with
  | EmptyString => cur
  | String c s' =>
      if Ascii.eqb c "/" then last_segment_from EmptyString s'
      else last_segment_from (cur +:+ String c EmptyString) s'
  end.

Definition last_segment (s : string) : string :=
  last_segment_from EmptyString s.

(** [s[:n]] *)
Fixpoint take (n : nat) (s : string) : string :=
  match n, s with
  | O, _ => EmptyString
  | S _, EmptyString => EmptyString
  | S n', String c s' => String c (take n' s')
  end.

(** [sep.join(l)] *)
Fixpoint join (sep : string) (l : list string) : string :=
  match l with
  | [] => EmptyString
  | [x] => x
  | x :: rest => x +:+ sep +:+ join sep rest
  end.

(** [str(n)] for an [int] *)
Definition str (n : Z) : string := NilZero.string_of_int (Z.to_int n).

(** A string is true in a condition when it is not empty. *)
Definition truthy (s : string) : bool :=
  match s with EmptyString => false | String _ _ => true end.

Definition newline : string := String (ascii_of_nat 10) EmptyString.

Definition isdigit (c : ascii) : bool :=
  let n := N_of_ascii c in ((48 <=? n) && (n <=? 57))%N.

Definition digit_value (c : ascii) : Z := Z.of_N (N_of_ascii c) - 48.

(** POSIX [os.path.join(a, b)] *)
Definition os_path_join (a b : string) : string :=
  if startswith "/" b then b
  else if negb (truthy a) || ends_with_slash a then a +:+ b
  else a +:+ "/" +:+ b.

End PyStr.

(** ** Exceptions and the state-and-exception monad *)

Inductive exn : Type :=
| AttributeError        (* attribute access on [None] *)
| UnboundLocalError     (* a local variable read before any assignment *)
| RequestException (msg : string)   (* [requests.get] could not answer *)
| JSONDecodeError       (* [json.load] on a file that is not JSON *)
| FitzError             (* PyMuPDF could not open or read the document *)
| ApiError (msg : string).          (* the classifier call raised; [msg] is [str(e)] *)

Inductive res (A : Type) : Type :=
| Ok (a : A)
| Raise (e : exn).
Arguments Ok {A} a.
Arguments Raise {A} e.

(** A computation runs from a state to a result and a state; the state
    reached when an exception is raised is kept, as the effects a Python
    function had before it raised are. *)
Definition M (S A : Type) : Type := S -> res A * S.

Definition ret {S A} (a : A) : M S A := fun st => (Ok a, st).

Definition raise {S A} (e : exn) : M S A := fun st => (Raise e, st).

Definition bind {S A B} (m : M S A) (k : A -> M S B) : M S B :=
  fun st =>
    match m st with
    | (Ok a, st') => k a st'
    | (Raise e, st') => (Raise e, st')
    end.

(** [try: m  except Exception as e: h e] *)
Definition try_except {S A} (m : M S A) (h : exn -> M S A) : M S A :=
  fun st =>
    match m st with
    | (Ok a, st') => (Ok a, st')
    | (Raise e, st') => h e st'
    end.

Definition modify {S} (f : S -> S) : M S unit := fun st => (Ok tt, f st).

Declare Scope py_scope.
Delimit Scope py_scope with py.
Notation "x <- m ;; k" := (bind m (fun x => k))
  (at level 100, m at next level, right associativity) : py_scope.
Notation "m ;; k" := (bind m (fun _ => k))
  (at level 100, right associativity) : py_scope.

(** [for x in l: body x] *)
Fixpoint for_each {S A} (body : A -> M S unit) (l : list A) : M S unit :=
  match l with
  | [] => ret tt
  | x :: rest => (body x ;; for_each body rest)%py
  end.

(** ** The metadata records and the file system *)

(** One record of [metadata.json].  [scrapper.py] writes the first six
    keys, [annotator.py] adds ["annotation"]; [None] is the key being
    absent. *)
Record entry : Type := {
  title : string;
  url : string;
  authors : string;
  year : Z;
  file_path : string;
  scraped_at : string;
  annotation : option string
}.

Definition set_annotation (a : string) (e : entry) : entry :=
  {| title := title e; url := url e; authors := authors e; year := year e;
     file_path := file_path e; scraped_at := scraped_at e;
     annotation := Some a |}.

(** A file is either a JSON array of records, as [json.dump] leaves it, or
    any other content.  [json.load] raises on the second kind. *)
Inductive file : Type :=
| JsonRecords (records : list entry)
| Blob (content : string).

Definition DOWNLOAD_DIR : string := "NeurIPS_Papers".
Definition METADATA_FILE : string := "metadata.json".

Definition metadata_path : string := PyStr.os_path_join DOWNLOAD_DIR METADATA_FILE.

(** [os.path.getsize(p) > 0] for a file on disk: the dump of a list is at
    least the two bytes of the empty array. *)
Definition nonempty_file (f : file) : bool :=
  match f with
  | JsonRecords _ => true
  | Blob content => PyStr.truthy content
  end.

(** What [json.load] returns for the file at [metadata_path]; the scripts
    check [os.path.exists] first and use the empty list when it is absent. *)
Definition read_metadata_file (d : gmap string file) : res (list entry) :=
  match d !! metadata_path with
  | None => Ok []
  | Some (JsonRecords l) => Ok l
  | Some (Blob _) => Raise JSONDecodeError
  end.

(** The records a reader finds in the store. *)
Definition stored (d : gmap string file) : list entry :=
  match read_metadata_file d with
  | Ok l => l
  | Raise _ => []
  end.

(** ** scrapper.py *)

Module Scrapper.

Definition BASE_URL : string := "https://papers.nips.cc".

(** *** What the script is given *)

(** The parsed page, as far as the script queries it: each field is the
    answer of one BeautifulSoup call. *)
Record PTag : Type := {
  find_i : option string            (* [tag.find("i")], its [.text] *)
}.

Record H4Tag : Type := {
  find_next_sibling_p : option PTag (* [tag.find_next_sibling("p")] *)
}.

Record Soup : Type := {
  find_h4 : option string;          (* [soup.find("h4")], its [.text] *)
  find_h4_Authors : option H4Tag;   (* [soup.find("h4", text="Authors")] *)
  select_one_pdf : option string;   (* [soup.select_one(...)], its [href] *)
  select_html : list string         (* [soup.select("a[href$='.html']")], the [href]s *)
}.

Inductive page_answer : Type :=
| PageFailure (msg : string)        (* [requests.get] raised *)
| Page (soup : Soup).               (* [BeautifulSoup(response.text, ...)] *)

Inductive artifact_answer : Type :=
| TransportError (msg : string)     (* [requests.get] or reading the body raised *)
| Response (status_code : Z) (content : string).

Record World : Type := {
  get_page : string -> page_answer;
  get_artifact : string -> artifact_answer;
  strftime : string                 (* [time.strftime("%Y-%m-%d %H:%M:%S")] *)
}.

(** *** What the script does *)

(** The lines the script prints. *)
Inductive event : Type :=
| Downloading (pdf_url : string)
| Saved (path : string)
| Failed_to_download (pdf_url : string) (status_code : Z)
| Error_downloading (pdf_url : string) (e : exn)
| Processing_paper_page (page_url : string)
| Skipping_already_downloaded (pdf_url : string)
| Found_PDF (pdf_url : string)
| Error_processing (page_url : string) (e : exn)
| Processing_year_page (year_url : string)
| Error_processing_year (year_url : string) (e : exn).

Record State : Type := {
  disk : gmap string file;
  stdout : list event               (* oldest line first *)
}.

Definition print (ev : event) : M State unit :=
  modify (fun st => {| disk := disk st; stdout := stdout st ++ [ev] |}).

(** [with open(path, "w"/"wb") as f: ...] *)
Definition write_file (path : string) (f : file) : M State unit :=
  modify (fun st => {| disk := <[path := f]> (disk st); stdout := stdout st |}).

Definition load_existing_metadata : M State (list entry) :=
  fun st => (read_metadata_file (disk st), st).

Definition save_metadata (metadata : entry) : M State unit :=
  (data <- load_existing_metadata ;;
   write_file metadata_path (JsonRecords (data ++ [metadata])))%py.

(** The generator under [any]: [entry["file_path"] and entry["url"] == pdf_url]. *)
Definition matches (pdf_url : string) (e : entry) : bool :=
  PyStr.truthy (file_path e) && String.eqb (url e) pdf_url.

Definition is_already_downloaded (pdf_url : string) : M State bool :=
  (existing_metadata <- load_existing_metadata ;;
   ret (existsb (matches pdf_url) existing_metadata))%py.

Definition download_pdf (w : World) (pdf_url path : string) : M State unit :=
  (print (Downloading pdf_url) ;;
   try_except
     (match get_artifact w pdf_url with
      | TransportError msg => raise (RequestException msg)
      | Response status_code content =>
          if status_code =? 200
          then (write_file path (Blob content) ;; print (Saved path))
          else print (Failed_to_download pdf_url status_code)
      end)
     (fun e => print (Error_downloading pdf_url e)))%py.

(** [re.search(r'/paper_files/paper/(\d{4})/', url)] and [int] of its
    group: the match at the head of [s], then the leftmost one. *)
Definition year_prefix : string := "/paper_files/paper/".

Fixpoint drop (n : nat) (s : string) : string :=
  match n, s with
  | O, _ => s
  | S _, EmptyString => EmptyString
  | S n', String _ s' => drop n' s'
  end.

Definition match_year_here (s : string) : option Z :=
  if PyStr.startswith year_prefix s then
    match drop (String.length year_prefix) s with
    | String a (String b (String c (String d (String e _)))) =>
        if PyStr.isdigit a && PyStr.isdigit b && PyStr.isdigit c
           && PyStr.isdigit d && Ascii.eqb e "/"
        then Some (1000 * PyStr.digit_value a + 100 * PyStr.digit_value b
                   + 10 * PyStr.digit_value c + PyStr.digit_value d)
        else None
    | _ => None
    end
  else None.

Fixpoint year_match (s : string) : option Z :=
  match match_year_here s with
  | Some y => Some y
  | None =>
      match s with
      | EmptyString => None
      | String _ s' => year_match s'
      end
  end.

(** [int(year_match.group(1)) if year_match else 0] *)
Definition year_of (paper_page_url : string) : Z :=
  match year_match paper_page_url with
  | Some y => y
  | None => 0
  end.

(** The destination of an artifact: [os.path.join] of the year folder and
    the last segment of its URL. *)
Definition year_folder_of (year : Z) : string :=
  PyStr.os_path_join DOWNLOAD_DIR (PyStr.str year).

Definition file_path_of (year : Z) (pdf_url : string) : string :=
  PyStr.os_path_join (year_folder_of year) (PyStr.last_segment pdf_url).

(** The body of the [try] of [process_paper].  The local [authors] is an
    [option]: [None] while no assignment to it has run.  [os.makedirs]
    has no counterpart: the disk is a map from paths to files, and a
    write at a path needs no folder. *)
Definition process_paper_try (w : World) (paper_page_url : string) : M State unit :=
  (soup <- match get_page w paper_page_url with
           | PageFailure msg => raise (RequestException msg)
           | Page soup => ret soup
           end ;;
   let title := match find_h4 soup with
                | Some text => PyStr.strip text
                | None => "Unknown Title"
                end in
   let author_section := find_h4_Authors soup in
   author_tag <- match author_section with
                 | None => raise AttributeError
                 | Some h4 => ret (find_next_sibling_p h4)
                 end ;;
   let authors : option string :=
     match author_tag with
     | Some p => match find_i p with
                 | Some text => Some (PyStr.strip text)
                 | None => None
                 end
     | None => None
     end in
   let year := year_of paper_page_url in
   match select_one_pdf soup with
   | Some href =>
       let pdf_url := BASE_URL +:+ href in
       already <- is_already_downloaded pdf_url ;;
       if already : bool then print (Skipping_already_downloaded pdf_url)
       else
         print (Found_PDF pdf_url) ;;
         let path := file_path_of year pdf_url in
         download_pdf w pdf_url path ;;
         authors_value <- match authors with
                          | None => raise UnboundLocalError
                          | Some a => ret a
                          end ;;
         let metadata := {| title := title; url := paper_page_url;
                            authors := authors_value; year := year;
                            file_path := path; scraped_at := strftime w;
                            annotation := None |} in
         save_metadata metadata
   | None => ret tt
   end)%py.

Definition process_paper (w : World) (paper_page_url : string) : M State unit :=
  (print (Processing_paper_page paper_page_url) ;;
   try_except (process_paper_try w paper_page_url)
              (fun e => print (Error_processing paper_page_url e)))%py.

(** [process_year] with its pool run by one worker: the tasks run to
    completion one after the other, in the order they were submitted. *)
Definition process_year (w : World) (year_url : string) : M State unit :=
  (print (Processing_year_page year_url) ;;
   try_except
     (soup <- match get_page w year_url with
              | PageFailure msg => raise (RequestException msg)
              | Page soup => ret soup
              end ;;
      for_each (fun href => process_paper w (BASE_URL +:+ href)) (select_html soup))
     (fun e => print (Error_processing_year year_url e)))%py.

(** *** Two threads in [save_metadata]

    [process_year] submits [process_paper] to a pool of ten threads, and
    [save_metadata] takes no lock.  A call is the two accesses it makes to
    the file, each taken as one step: the load with the append to the
    loaded list, and the dump. *)
Inductive writer : Type :=
| Ready (metadata : entry)          (* called, nothing read yet *)
| Merged (data : list entry)        (* loaded and appended to, not written *)
| Finished
| Crashed (e : exn).

Definition writer_step (t : writer) (d : gmap string file)
  : writer * gmap string file :=
  match t with
  | Ready metadata =>
      match read_metadata_file d with
      | Ok data => (Merged (data ++ [metadata]), d)
      | Raise e => (Crashed e, d)
      end
  | Merged data => (Finished, <[metadata_path := JsonRecords data]> d)
  | Finished => (Finished, d)
  | Crashed e => (Crashed e, d)
  end.

Record threads : Type := {
  first : writer;
  second : writer;
  shared : gmap string file
}.

(** One step of the thread the scheduler picks: [true] is the first. *)
Definition schedule_step (c : threads) (pick : bool) : threads :=
  if pick
  then let '(t, d) := writer_step (first c) (shared c) in
       {| first := t; second := second c; shared := d |}
  else let '(t, d) := writer_step (second c) (shared c) in
       {| first := first c; second := t; shared := d |}.

Definition run_schedule (schedule : list bool) (c : threads) : threads :=
  fold_left schedule_step schedule c.

Definition two_calls (a b : entry) (d : gmap string file) : threads :=
  {| first := Ready a; second := Ready b; shared := d |}.

Definition both_finished (c : threads) : Prop :=
  first c = Finished /\ second c = Finished.

(** The contract of [appendOne] under concurrent callers: whatever the
    schedule, once both calls have returned the collection holds what it
    held before and the item of either call. *)
Definition no_lost_update : Prop :=
  forall (schedule : list bool) (a b : entry) (d : gmap string file),
    let c := run_schedule schedule (two_calls a b d) in
    both_finished c ->
    forall x, In x (stored d) \/ x = a \/ x = b -> In x (stored (shared c)).

(** The dictionary [process_paper] builds for a page whose emphasis element
    holds [text]. *)
Definition metadata_for (w : World) (soup : Soup) (paper_page_url text href : string)
  : entry :=
  {| title := match find_h4 soup with
              | Some t => PyStr.strip t
              | None => "Unknown Title"
              end;
     url := paper_page_url;
     authors := PyStr.strip text;
     year := year_of paper_page_url;
     file_path := file_path_of (year_of paper_page_url) (BASE_URL +:+ href);
     scraped_at := strftime w;
     annotation := None |}.

(** A download that writes no file: the request or the read of the body
    raised, or the status is not 200. *)
Definition download_failed (answer : artifact_answer) : bool :=
  match answer with
  | TransportError _ => true
  | Response status_code _ => negb (status_code =? 200)
  end.

(** The artifact URLs requested, read off the lines printed. *)
Fixpoint downloads (log : list event) : list string :=
  match log with
  | [] => []
  | Downloading pdf_url :: rest => pdf_url :: downloads rest
  | _ :: rest => downloads rest
  end.

(** The state a computation leaves, and its result. *)
Definition exec {A} (m : M State A) (st : State) : State := snd (m st).
Definition result {A} (m : M State A) (st : State) : res A := fst (m st).

(** The records in the store. *)
Definition records (st : State) : list entry := stored (disk st).

(** The year pages a log says were processed. *)
Fixpoint year_pages (log : list event) : list string :=
  match log with
  | [] => []
  | Processing_year_page year_url :: rest => year_url :: year_pages rest
  | _ :: rest => year_pages rest
  end.

(** The disk [download_pdf] leaves: the body at [path] when the status is
    200, the disk as it was otherwise. *)
Definition disk_after_download (w : World) (pdf_url path : string)
                               (d : gmap string file) : gmap string file :=
  match get_artifact w pdf_url with
  | Response 200 body => <[path := Blob body]> d
  | _ => d
  end.

(** A record as [process_paper] writes it for [page]. *)
Definition fresh_record (page : string) (e : entry) : Prop :=
  url e = page /\ year e = year_of page /\ PyStr.truthy (file_path e) = true /\
  annotation e = None.

(** *** The choice of the year pages: [extract_year_from_url] and [main] *)

(** [str.isdigit] on one code point below 256: the ten decimal digits and
    the superscripts two, three and one. *)
Definition str_isdigit (c : ascii) : bool :=
  let n := N_of_ascii c in
  (PyStr.isdigit c || (n =? 178) || (n =? 179) || (n =? 185))%N.

(** [''.join(filter(str.isdigit, url))] *)
Fixpoint filter_isdigit (url : string) : string :=
  match url with
  | EmptyString => EmptyString
  | String c rest =>
      if str_isdigit c then String c (filter_isdigit rest) else filter_isdigit rest
  end.

(** A string of decimal digits and the number it writes, [acc] being the
    number written so far. *)
Fixpoint decimal (s : string) : bool :=
  match s with
  | EmptyString => true
  | String c rest => PyStr.isdigit c && decimal rest
  end.

Fixpoint decimal_value (acc : Z) (s : string) : Z :=
  match s with
  | EmptyString => acc
  | String c rest => decimal_value (10 * acc + PyStr.digit_value c) rest
  end.

(** The builtin [int] on the strings [filter] lets through is taken from
    outside, [None] standing for [ValueError]: on such a string it answers
    only when the string is not empty and all of decimal digits, with the
    number it writes, and it does answer when that string is no longer than
    640 characters, the least value the interpreter's limit on such
    conversions can be set to. *)
Record py_int_contract (int : string -> option Z) : Prop := {
  int_sound : forall s n,
    filter_isdigit s = s -> int s = Some n ->
    s <> EmptyString /\ decimal s = true /\ n = decimal_value 0 s;
  int_short : forall s,
    s <> EmptyString -> decimal s = true -> (String.length s <= 640)%nat ->
    int s = Some (decimal_value 0 s)
}.

(** An interpreter without a limit. *)
Definition int_unlimited (s : string) : option Z :=
  match s with
  | EmptyString => None
  | _ => if decimal s then Some (decimal_value 0 s) else None
  end.

Definition extract_year_from_url (int : string -> option Z) (url : string) : Z :=
  match int (filter_isdigit url) with
  | Some n => n
  | None => 0
  end.

(** [sorted(l, key=key, reverse=True)]: by decreasing key, elements of
    equal key in the order they have in [l]. *)
Fixpoint insert_reverse (key : string -> Z) (x : string) (l : list string)
  : list string :=
  match l with
  | [] => [x]
  | y :: rest =>
      if key x <? key y then y :: insert_reverse key x rest else x :: y :: rest
  end.

Fixpoint sorted_reverse (key : string -> Z) (l : list string) : list string :=
  match l with
  | [] => []
  | x :: rest => insert_reverse key x (sorted_reverse key rest)
  end.

Inductive root_answer : Type :=
| RootFailure (msg : string)          (* [requests.get(BASE_URL)] raised *)
| RootLinks (hrefs : list string).    (* [select("a[href^='/paper']")], the [href]s *)

(** What [main] is given: the catalog, the answer of its root, the order
    in which a [set] built from a list is iterated, and [int]. *)
Record Site : Type := {
  world : World;
  root : root_answer;
  set_iteration : list string -> list string;
  py_int : string -> option Z
}.

(** A [set] holds each element of the list once; its order is its own. *)
Definition set_contract (iteration : list string -> list string) : Prop :=
  forall l, NoDup (iteration l) /\ forall x, In x (iteration l) <-> In x l.

(** [year_urls[:5]] *)
Definition latest_year_urls (site : Site) (hrefs : list string) : list string :=
  firstn 5 (sorted_reverse (extract_year_from_url (py_int site))
              (set_iteration site (map (fun href => BASE_URL +:+ href) hrefs))).

(** [main] prints lines of its own between those of the crawl. *)
Inductive line : Type :=
| Starting_scraper
| Processing_latest (count : nat) (latest : list string)
| Error_in_main (e : exn)
| Crawl_line (ev : event).

Record Console : Type := {
  console_disk : gmap string file;
  console : list line                 (* oldest line first *)
}.





End Scrapper.

(** ** annotator.py *)

Module Annotator.

Definition LABELS : list string :=
  ["Reinforcement Learning"; "Computer Vision"; "Natural Language Processing";
   "Optimization"; "Theoretical ML"].
Definition API_RETRY_LIMIT : nat := 5.
Definition API_RETRY_DELAY : Z := 2.

(** *** What the script is given *)

(** What [model.generate_content(prompt)] does, with the read of
    [response.text] that follows it in the same [try]. *)
Inductive api_answer : Type :=
| Answer (response : option string) (* [None]: a response that is false in a condition *)
| Raises (msg : string).            (* an exception [e], [msg] being [str(e)] *)

Record World : Type := {
  (** the text of each page of the document, [None] when [fitz.open] or
      [get_text] raises *)
  fitz_page_texts : file -> option (list string);
  (** the answer to the [n]-th call of the run, counted from 0 *)
  generate_content : nat -> string -> api_answer
}.

(** *** What the script does *)

Record State : Type := {
  disk : gmap string file;
  api_calls : nat;                  (* calls of [generate_content] so far *)
  slept : list Z                    (* arguments of [time.sleep], oldest first *)
}.

Definition sleep (seconds : Z) : M State unit :=
  modify (fun st => {| disk := disk st; api_calls := api_calls st;
                       slept := slept st ++ [seconds] |}).

Definition load_metadata : M State (list entry) :=
  fun st => (read_metadata_file (disk st), st).

Definition save_metadata (metadata : list entry) : M State unit :=
  modify (fun st => {| disk := <[metadata_path := JsonRecords metadata]> (disk st);
                       api_calls := api_calls st; slept := slept st |}).

(** [os.path.exists(path) and os.path.getsize(path) > 0] *)
Definition valid_pdf (d : gmap string file) (path : string) : bool :=
  match d !! path with
  | Some f => nonempty_file f
  | None => false
  end.

Definition is_valid_pdf (path : string) : M State bool :=
  fun st => (Ok (valid_pdf (disk st) path), st).

(** What PyMuPDF reads from the file at [path], if it can. *)
Definition page_texts (w : World) (d : gmap string file) (path : string)
  : option (list string) :=
  d !! path ≫= fitz_page_texts w.

(** [fitz.open(pdf_path)] and the page texts read from the document. *)
Definition fitz_open (w : World) (pdf_path : string) : M State (list string) :=
  fun st =>
    match page_texts w (disk st) pdf_path with
    | Some pages => (Ok pages, st)
    | None => (Raise FitzError, st)
    end.

(** The text of the first three pages, joined and stripped. *)
Definition excerpt (doc : list string) : string :=
  PyStr.strip (PyStr.join PyStr.newline (firstn (Nat.min 3 (length doc)) doc)).

Definition extract_text_from_pdf (w : World) (pdf_path : string) : M State string :=
  (valid <- is_valid_pdf pdf_path ;;
   if negb valid then ret ""
   else
     try_except
       (doc <- fitz_open w pdf_path ;;
        let text := excerpt doc in
        ret (if PyStr.truthy text then text else "No text found"))
       (fun _ => ret ""))%py.

(** [str(e)] *)
Definition str_exn (e : exn) : string :=
  match e with
  | ApiError msg => msg
  | RequestException msg => msg
  | AttributeError => "AttributeError"
  | UnboundLocalError => "UnboundLocalError"
  | JSONDecodeError => "JSONDecodeError"
  | FitzError => "FitzError"
  end.

Definition generate (w : World) (prompt : string) : M State (option string) :=
  fun st =>
    let st' := {| disk := disk st; api_calls := S (api_calls st);
                  slept := slept st |} in
    match generate_content w (api_calls st) prompt with
    | Answer response => (Ok response, st')
    | Raises msg => (Raise (ApiError msg), st')
    end.

(** The [for attempt in range(max_retries)] loop, over the attempts not
    yet made.  One round either returns ([Some]) or falls through to the
    next ([None]). *)
Definition attempt_once (w : World) (prompt : string) (attempt : nat)
  : M State (option string) :=
  try_except
    (response <- generate w prompt ;;
     ret (Some match response with
               | Some text => PyStr.strip text
               | None => "Unknown"
               end))%py
    (fun e =>
       if PyStr.contains "429" (str_exn e)
       then (sleep (API_RETRY_DELAY * 2 ^ Z.of_nat attempt) ;; ret None)%py
       else ret (Some "Unknown")).

Fixpoint retry_loop (w : World) (prompt : string) (attempts : list nat)
  : M State string :=
  match attempts with
  | [] => ret "Unknown"
  | attempt :: rest =>
      (returned <- attempt_once w prompt attempt ;;
       match returned with
       | Some value => ret value
       | None => retry_loop w prompt rest
       end)%py
  end.

(** Building the [GenerativeModel] object calls nothing and is left out. *)
Definition call_gemini_with_retry (w : World) (prompt : string)
                                  (max_retries : nat) : M State string :=
  retry_loop w prompt (seq 0 max_retries).

(** The two ways a call of [generate_content] ends a round of the loop:
    a rate-limit error sends it to the next round after a sleep, anything
    else makes it return. *)
Definition rate_limited (answer : api_answer) : bool :=
  match answer with
  | Raises msg => PyStr.contains "429" msg
  | Answer _ => false
  end.

Definition returned_for (answer : api_answer) : string :=
  match answer with
  | Answer (Some text) => PyStr.strip text
  | Answer None => "Unknown"
  | Raises _ => "Unknown"
  end.

(** [wait_time] at each of the attempts [first], ..., [first + n - 1]. *)
Definition delays (first n : nat) : list Z :=
  map (fun attempt => API_RETRY_DELAY * 2 ^ Z.of_nat attempt) (seq first n).

Definition prompt_of (text : string) : string :=
  PyStr.newline
  +:+ "    Categorize the following research paper text into one of these categories: "
  +:+ PyStr.join ", " LABELS +:+ "." +:+ PyStr.newline
  +:+ "    Respond with only the label name." +:+ PyStr.newline
  +:+ "    Text:" +:+ PyStr.newline +:+ PyStr.take 1000 text +:+ PyStr.newline
  +:+ "    ".

Definition annotate_text (w : World) (text : string) : M State string :=
  call_gemini_with_retry w (prompt_of text) API_RETRY_LIMIT.

(** [annotate_papers] holds the loaded list in [metadata] and, in
    [unannotated], references to some of its dictionaries: a reference is
    the index of the dictionary in [metadata], and an assignment through
    it updates [metadata] at that index. *)
Fixpoint unannotated_from (i : nat) (l : list entry) : list nat :=
  match l with
  | [] => []
  | e :: rest =>
      match annotation e with
      | None => i :: unannotated_from (S i) rest
      | Some _ => unannotated_from (S i) rest
      end
  end.

Definition assign_annotation (i : nat) (a : string) (metadata : list entry)
  : list entry :=
  match metadata !! i with
  | Some e => <[i := set_annotation a e]> metadata
  | None => metadata
  end.

(** The body of [for entry in unannotated]. *)
Definition annotate_entry (w : World) (metadata : list entry) (i : nat)
  : M State (list entry) :=
  match metadata !! i with
  | None => ret metadata
  | Some e =>
      let pdf_path := file_path e in
      (valid <- is_valid_pdf pdf_path ;;
       if negb valid then ret (assign_annotation i "Unknown" metadata)
       else
         text <- extract_text_from_pdf w pdf_path ;;
         if negb (PyStr.truthy text)
         then ret (assign_annotation i "Unknown" metadata)
         else
           a <- annotate_text w text ;;
           sleep 2 ;;
           ret (assign_annotation i a metadata))%py
  end.

Fixpoint annotate_loop (w : World) (unannotated : list nat)
                       (metadata : list entry) : M State (list entry) :=
  match unannotated with
  | [] => ret metadata
  | i :: rest =>
      (metadata' <- annotate_entry w metadata i ;;
       annotate_loop w rest metadata')%py
  end.

Definition annotate_papers (w : World) : M State unit :=
  (metadata <- load_metadata ;;
   match metadata with
   | [] => ret tt
   | _ =>
       let unannotated := unannotated_from 0 metadata in
       match unannotated with
       | [] => ret tt
       | _ =>
           metadata' <- annotate_loop w unannotated metadata ;;
           save_metadata metadata'
       end
   end)%py.

Definition records (st : State) : list entry := stored (disk st).

Definition exec {A} (m : M State A) (st : State) : State := snd (m st).
Definition result {A} (m : M State A) (st : State) : res A := fst (m st).

(** Extraction fails: the artifact is missing or empty, or PyMuPDF raises. *)
Definition extraction_fails (w : World) (d : gmap string file) (path : string)
  : bool :=
  negb (valid_pdf d path) ||
  match page_texts w d path with
  | Some _ => false
  | None => true
  end.

(** Extraction yields empty text: the document opens and the first three
    pages hold nothing but white space. *)
Definition extraction_empty (w : World) (d : gmap string file) (path : string)
  : bool :=
  valid_pdf d path &&
  match page_texts w d path with
  | Some doc => negb (PyStr.truthy (excerpt doc))
  | None => false
  end.

(** What one pass may do to a record: nothing when it has a label, set
    the label and nothing else when it has none, to ["Unknown"] when the
    extraction fails. *)
Definition pass_effect (w : World) (d : gmap string file) (e e' : entry) : Prop :=
  match annotation e with
  | Some _ => e' = e
  | None =>
      exists a, e' = set_annotation a e /\
                (extraction_fails w d (file_path e) = true -> a = "Unknown")
  end.

End Annotator.

(** ** Concrete catalogs and stores *)

Module Sample.
Import Scrapper.

Definition year_url : string := "https://papers.nips.cc/paper_files/paper/2024".
Definition item_href : string :=
  "/paper_files/paper/2024/hash/abc-Abstract-Conference.html".
Definition item_url : string := BASE_URL +:+ item_href.
Definition pdf_href : string :=
  "/paper_files/paper/2024/file/abc-Paper-Conference.pdf".
Definition pdf_url : string := BASE_URL +:+ pdf_href.
Definition pdf_path : string := "NeurIPS_Papers/2024/abc-Paper-Conference.pdf".
Definition pdf_body : string := "%PDF-1.4 example".
Definition now : string := "2025-01-01 00:00:00".

(** An item page titled "Example Paper" with a link to its artifact;
    [heading] is what the search for the "Authors" heading finds. *)
Definition item_soup (heading : option H4Tag) : Soup :=
  {| find_h4 := Some "Example Paper"; find_h4_Authors := heading;
     select_one_pdf := Some pdf_href; select_html := [] |}.

Definition year_soup : Soup :=
  {| find_h4 := None; find_h4_Authors := None; select_one_pdf := None;
     select_html := [item_href] |}.

(** The heading followed by a paragraph that names the authors in an
    emphasis element, and the heading followed by a plain paragraph. *)
Definition with_authors : option H4Tag :=
  Some {| find_next_sibling_p := Some {| find_i := Some "A. Author, B. Writer" |} |}.

(** A catalog of one year page with one item page, serving [answer] for
    the artifact. *)
Definition catalog (heading : option H4Tag) (answer : artifact_answer) : World :=
  {| get_page := fun u =>
       if String.eqb u item_url then Page (item_soup heading)
       else if String.eqb u year_url then Page year_soup
       else PageFailure "404";
     get_artifact := fun u =>
       if String.eqb u pdf_url then answer else Response 404 "";
     strftime := now |}.

Definition empty_state : State := {| disk := ∅; stdout := [] |}.

(** The record of the sample item. *)
Definition item_record : entry :=
  {| title := "Example Paper"; url := item_url;
     authors := "A. Author, B. Writer"; year := 2024;
     file_path := pdf_path; scraped_at := now; annotation := None |}.

Definition other_record : entry :=
  {| title := "Another Paper"; url := "https://papers.nips.cc/other.html";
     authors := "C. Third"; year := 2023;
     file_path := "NeurIPS_Papers/2023/other-Paper.pdf"; scraped_at := now;
     annotation := None |}.

(** The store and the artifact after the sample item was harvested. *)
Definition harvested : Annotator.State :=
  {| Annotator.disk := {[ metadata_path := JsonRecords [item_record];
                          pdf_path := Blob pdf_body ]};
     Annotator.api_calls := 0; Annotator.slept := [] |}.

(** The same store with, before the sample record, one that an earlier
    pass labelled ["Unknown"]. *)
Definition relabel : Annotator.State :=
  {| Annotator.disk :=
       {[ metadata_path := JsonRecords [set_annotation "Unknown" other_record;
                                        item_record];
          pdf_path := Blob pdf_body ]};
     Annotator.api_calls := 0; Annotator.slept := [] |}.

(** A document whose pages hold white space only, and a classifier that
    answers at once. *)
Definition blank_pages : Annotator.World :=
  {| Annotator.fitz_page_texts := fun _ => Some [""; "  "];
     Annotator.generate_content :=
       fun _ _ => Annotator.Answer (Some "Optimization") |}.

(** A classifier that raises a rate-limit error on the first [k] calls
    and gives [then_answer] from then on. *)
Definition throttled (k : nat) (then_answer : Annotator.api_answer)
  : Annotator.World :=
  {| Annotator.fitz_page_texts := fun _ => Some ["Some text."];
     Annotator.generate_content :=
       fun n _ => if (n <? k)%nat
                  then Annotator.Raises "429 Resource has been exhausted"
                  else then_answer |}.

(** A reader that fails on every document. *)
Definition unreadable : Annotator.World :=
  {| Annotator.fitz_page_texts := fun _ => None;
     Annotator.generate_content :=
       fun _ _ => Annotator.Answer (Some "Optimization") |}.

(** A store that holds a record whose ["url"] is the URL of the sample
    artifact, and one whose metadata file is not JSON. *)
Definition registered : State :=
  {| disk := {[ metadata_path :=
                  JsonRecords [{| title := "Example Paper"; url := pdf_url;
                                  authors := "A. Author, B. Writer"; year := 2024;
                                  file_path := pdf_path; scraped_at := now;
                                  annotation := None |}] ]};
     stdout := [] |}.

Definition unreadable_store : State :=
  {| disk := {[ metadata_path := Blob "not json" ]}; stdout := [] |}.

(** A site whose root lists seven year pages, one of them twice and one
    without a year, over the sample catalog; its sets are iterated in the
    order of first insertion. *)
Definition first_occurrences (l : list string) : list string :=
  fold_right (fun x seen => x :: List.filter (fun y => negb (String.eqb x y)) seen) [] l.

Definition root_hrefs : list string :=
  ["/paper_files/paper/2019"; "/paper_files/paper/2024"; "/paper_files/paper/2021";
   "/paper_files/paper/2024"; "/paper_files/paper/about";
   "/paper_files/paper/2023"; "/paper_files/paper/2020";
   "/paper_files/paper/2022"].

Definition site : Site :=
  {| world := catalog with_authors (Response 200 pdf_body);
     root := RootLinks root_hrefs;
     set_iteration := first_occurrences;
     py_int := int_unlimited |}.

Definition empty_console : Console := {| console_disk := ∅; console := [] |}.

End Sample.

(** ** Facts about the string functions *)

Module PyStrFacts.
Import PyStr.

Example strip_both_ends : strip "  a b  " = "a b".
Proof. reflexivity. Qed.

Example strip_blank : strip (newline +:+ "  ") = "".
Proof. reflexivity. Qed.

Example contains_429 : contains "429" "Error 429: quota" = true.
Proof. reflexivity. Qed.

Example contains_none : contains "429" "500 Internal error" = false.
Proof. reflexivity. Qed.

Example last_segment_of_url :
  last_segment "https://papers.nips.cc/paper/file/abc-Paper.pdf" = "abc-Paper.pdf".
Proof. reflexivity. Qed.

Example str_of_year : str 2024 = "2024" /\ str 0 = "0" /\ str 42 = "42".
Proof. repeat split. Qed.

Example join_labels : join ", " ["a"; "b"; "c"] = "a, b, c".
Proof. reflexivity. Qed.

Example os_path_join_relative : os_path_join "NeurIPS_Papers" "2024" = "NeurIPS_Papers/2024".
Proof. reflexivity. Qed.

Lemma truthy_app_l (a b : string) : truthy a = true -> truthy (a +:+ b) = true.
Proof. destruct a; [discriminate | reflexivity]. Qed.

Lemma truthy_startswith (p s : string) :
  truthy p = true -> startswith p s = true -> truthy s = true.
Proof. destruct p, s; simpl; congruence. Qed.

Lemma os_path_join_truthy (a b : string) :
  truthy a = true -> truthy (os_path_join a b) = true.
Proof.
  intros Ha. unfold os_path_join.
  destruct (startswith "/" b) eqn:Hb.
  - apply (truthy_startswith "/"); [reflexivity | exact Hb].
  - destruct (negb (truthy a) || ends_with_slash a); now apply truthy_app_l.
Qed.

Lemma startswith_slash (s : string) :
  startswith "/" s = true -> exists s', s = String "/"%char s'.
Proof.
  destruct s as [|c s']; [discriminate |].
  change (startswith "/" (String c s')) with (Ascii.eqb "/" c && true).
  rewrite andb_true_r. intros H%Ascii.eqb_eq. subst c. now exists s'.
Qed.

Lemma app_cons (c : ascii) (a b : string) :
  String c a +:+ b = String c (a +:+ b).
Proof. reflexivity. Qed.

(** [str] of an integer starts with a digit or the minus sign. *)
Lemma str_head (n : Z) :
  exists c s, str n = String c s /\ c <> "m"%char /\ c <> "/"%char.
Proof.
  unfold str. destruct (Z.to_int n) as [d | d].
  - destruct d; simpl; eexists _, _; (split; [reflexivity | split; discriminate]).
  - simpl. eexists _, _. split; [reflexivity | split; discriminate].
Qed.

End PyStrFacts.

Module ScrapperFacts.
Import Scrapper PyStr.

Example metadata_path_value : metadata_path = "NeurIPS_Papers/metadata.json".
Proof. reflexivity. Qed.

Example year_of_item_url : year_of Sample.item_url = 2024.
Proof. reflexivity. Qed.

(** The leftmost match counts, and a year needs its four digits and the
    slash after them. *)
Example year_of_leftmost :
  year_of "/paper_files/paper/20x4/paper_files/paper/0042/paper_files/paper/2024/" = 42.
Proof. reflexivity. Qed.

Example year_of_no_match : year_of "https://papers.nips.cc/paper/2024" = 0.
Proof. reflexivity. Qed.

Example file_path_of_sample : file_path_of 2024 Sample.pdf_url = Sample.pdf_path.
Proof. reflexivity. Qed.

Lemma year_folder_truthy (y : Z) : truthy (year_folder_of y) = true.
Proof. apply PyStrFacts.os_path_join_truthy. reflexivity. Qed.

Lemma file_path_of_truthy (y : Z) (u : string) : truthy (file_path_of y u) = true.
Proof. apply PyStrFacts.os_path_join_truthy, year_folder_truthy. Qed.

Lemma year_folder_head (y : Z) :
  exists c s, year_folder_of y = "NeurIPS_Papers/" +:+ String c s /\ c <> "m"%char.
Proof.
  destruct (PyStrFacts.str_head y) as (c & s & Hs & Hm & Hslash).
  exists c, s. split; [| exact Hm].
  unfold year_folder_of, os_path_join. rewrite Hs.
  change (startswith "/" (String c s)) with (Ascii.eqb "/" c && true).
  rewrite andb_true_r.
  destruct (Ascii.eqb_spec "/" c) as [<- | _]; [congruence | reflexivity].
Qed.

(** Artifacts are written under a year folder, never over the store. *)
Lemma file_path_of_ne_metadata_path (y : Z) (u : string) :
  file_path_of y u <> metadata_path.
Proof.
  destruct (year_folder_head y) as (c & s & Hy & Hm).
  assert (Hfolder : forall t, year_folder_of y +:+ t <> metadata_path).
  { intros t. rewrite Hy. change metadata_path with "NeurIPS_Papers/metadata.json".
    repeat rewrite PyStrFacts.app_cons. intros [= -> _]. congruence. }
  unfold file_path_of, os_path_join.
  destruct (startswith "/" (last_segment u)) eqn:Hseg.
  - apply PyStrFacts.startswith_slash in Hseg as [s' ->]. discriminate.
  - destruct (_ || _); apply Hfolder.
Qed.

(** *** The fetcher *)

Lemma download_pdf_result (w : World) (u path : string) (s : State) :
  result (download_pdf w u path) s = Ok tt.
Proof.
  unfold result, download_pdf, bind, try_except, print, write_file, modify, raise.
  simpl. destruct (get_artifact w u) as [msg | code body]; simpl; [reflexivity |].
  destruct (code =? 200); reflexivity.
Qed.

Lemma download_pdf_failed (w : World) (u path : string) (s : State) :
  download_failed (get_artifact w u) = true ->
  disk (exec (download_pdf w u path) s) = disk s.
Proof.
  unfold exec, download_pdf, bind, try_except, print, write_file, modify, raise,
    download_failed.
  simpl. destruct (get_artifact w u) as [msg | code body]; simpl; [reflexivity |].
  destruct (code =? 200); [discriminate | reflexivity].
Qed.

Lemma download_pdf_200 (w : World) (u path body : string) (s : State) :
  get_artifact w u = Response 200 body ->
  exec (download_pdf w u path) s =
    {| disk := <[path := Blob body]> (disk s);
       stdout := (stdout s ++ [Downloading u]) ++ [Saved path] |}.
Proof.
  intros H. unfold exec, download_pdf, bind, try_except, print, write_file, modify.
  simpl. rewrite H. reflexivity.
Qed.

Lemma download_pdf_eta (w : World) (u path : string) (s : State) :
  download_pdf w u path s = (Ok tt, exec (download_pdf w u path) s).
Proof.
  pose proof (download_pdf_result w u path s) as H. unfold result, exec in *.
  destruct (download_pdf w u path s) as [r s']. simpl in *. now subst r.
Qed.

(** *** One item page, up to the download *)

(** An item page with an "Authors" heading and a new artifact link: the
    page is fetched, the artifact is downloaded, and only then is the
    local [authors] read. *)
Lemma process_paper_new_artifact (w : World) (page : string) (st : State)
      (soup : Soup) (h4 : H4Tag) (href : string) (old : list entry) :
  get_page w page = Page soup ->
  find_h4_Authors soup = Some h4 ->
  select_one_pdf soup = Some href ->
  read_metadata_file (disk st) = Ok old ->
  existsb (matches (BASE_URL +:+ href)) old = false ->
  let pdf_url := BASE_URL +:+ href in
  let path := file_path_of (year_of page) pdf_url in
  let st1 := {| disk := disk st;
                stdout := (stdout st ++ [Processing_paper_page page])
                            ++ [Found_PDF pdf_url] |} in
  let st2 := exec (download_pdf w pdf_url path) st1 in
  process_paper w page st =
    match find_next_sibling_p h4 ≫= find_i with
    | None => print (Error_processing page UnboundLocalError) st2
    | Some text =>
        try_except
          (save_metadata
             {| title := match find_h4 soup with
                         | Some t => strip t
                         | None => "Unknown Title"
                         end;
                url := page; authors := strip text; year := year_of page;
                file_path := path; scraped_at := strftime w;
                annotation := None |})
          (fun e => print (Error_processing page e)) st2
    end.
Proof.
  intros Hpage Hh4 Hlink Hold Hnew pdf_url path st1 st2.
  unfold process_paper, process_paper_try.
  unfold bind at 1. unfold print at 1, modify at 1.
  unfold try_except at 1. unfold bind at 1. rewrite Hpage. unfold ret at 1.
  unfold bind at 1. rewrite Hh4. unfold ret at 1.
  rewrite Hlink. unfold bind at 1.
  unfold is_already_downloaded, load_existing_metadata. unfold bind at 1.
  cbn [disk]. rewrite Hold. unfold ret at 1. rewrite Hnew. fold pdf_url.
  unfold bind at 1. unfold print at 1, modify at 1.
  unfold bind at 1. fold path. cbn [disk stdout]. fold st1.
  rewrite (download_pdf_eta w pdf_url path st1). fold st2.
  destruct (find_next_sibling_p h4) as [p |]; cbn [mbind option_bind].
  - destruct (find_i p) as [text |].
    + unfold bind at 1, ret at 1, try_except. reflexivity.
    + unfold bind at 1, raise at 1. reflexivity.
  - unfold bind at 1, raise at 1. reflexivity.
Qed.


(** No failure of an item leaves its task: whatever the page, the
    handler of [process_paper] ends the call normally. *)
Lemma process_paper_result (w : World) (page : string) (st : State) :
  result (process_paper w page) st = Ok tt.
Proof.
  unfold result, process_paper, bind, try_except, print, modify. simpl.
  destruct (process_paper_try w page _) as [[[] | e] st']; reflexivity.
Qed.

Lemma process_paper_eta (w : World) (page : string) (st : State) :
  process_paper w page st = (Ok tt, exec (process_paper w page) st).
Proof.
  pose proof (process_paper_result w page st) as H. unfold result, exec in *.
  destruct (process_paper w page st) as [r s']. simpl in *. now subst r.
Qed.

(** The loop of [process_year] over the links goes on after any page, and
    ends normally. *)
Lemma for_each_process_paper_cons (w : World) (href : string)
      (rest : list string) (st : State) :
  for_each (fun h => process_paper w (BASE_URL +:+ h)) (href :: rest) st =
  for_each (fun h => process_paper w (BASE_URL +:+ h)) rest
           (exec (process_paper w (BASE_URL +:+ href)) st).
Proof.
  cbn [for_each]. unfold bind. now rewrite process_paper_eta.
Qed.

Lemma for_each_process_paper_result (w : World) (hrefs : list string) :
  forall st, result (for_each (fun h => process_paper w (BASE_URL +:+ h)) hrefs) st
             = Ok tt.
Proof.
  induction hrefs as [| href rest IH]; intros st; [reflexivity |].
  unfold result. rewrite for_each_process_paper_cons. apply IH.
Qed.

Lemma is_already_downloaded_false (u : string) (st : State) :
  result (is_already_downloaded u) st = Ok false ->
  read_metadata_file (disk st) = Ok (records st) /\
  existsb (matches u) (records st) = false.
Proof.
  unfold result, is_already_downloaded, load_existing_metadata, bind, ret,
    records, stored.
  simpl. destruct (read_metadata_file (disk st)) as [l | e]; simpl; [| discriminate].
  intros [= H]. now split.
Qed.

(** What [is_already_downloaded] computes on a readable store: some
    record has a non-empty ["file_path"] and its ["url"] is the argument. *)
Lemma is_already_downloaded_true (u : string) (st : State) (l : list entry) :
  read_metadata_file (disk st) = Ok l ->
  result (is_already_downloaded u) st = Ok true <->
  exists e, In e l /\ url e = u /\ file_path e <> "".
Proof.
  intros Hl.
  unfold result, is_already_downloaded, load_existing_metadata, bind, ret.
  simpl. rewrite Hl. simpl. split.
  - intros [= H]. apply existsb_exists in H as (e & He & Hm).
    unfold matches in Hm. apply andb_prop in Hm as [Hp Hu].
    exists e. split; [exact He |]. split; [now apply String.eqb_eq |].
    destruct (file_path e); [discriminate | congruence].
  - intros (e & He & Hu & Hp). f_equal. apply existsb_exists.
    exists e. split; [exact He |]. unfold matches.
    apply andb_true_intro. split; [| now apply String.eqb_eq].
    destruct (file_path e); [congruence | reflexivity].
Qed.

Lemma stored_insert (d : gmap string file) (l : list entry) :
  stored (<[metadata_path := JsonRecords l]> d) = l.
Proof. unfold stored, read_metadata_file. now rewrite lookup_insert_eq. Qed.

Lemma read_metadata_file_insert_ne (d : gmap string file) (path : string) (f : file) :
  path <> metadata_path ->
  read_metadata_file (<[path := f]> d) = read_metadata_file d.
Proof. intros H. unfold read_metadata_file. now rewrite lookup_insert_ne. Qed.

(** The fetcher leaves the disk as it was or with one more artifact. *)
Lemma download_pdf_disk (w : World) (u path : string) (s : State) :
  disk (exec (download_pdf w u path) s) = disk s \/
  exists body, disk (exec (download_pdf w u path) s) = <[path := Blob body]> (disk s).
Proof.
  destruct (get_artifact w u) as [msg | code body] eqn:Hans.
  - left. apply download_pdf_failed. now rewrite Hans.
  - destruct (code =? 200) eqn:Hcode.
    + right. exists body. apply Z.eqb_eq in Hcode. subst code.
      now rewrite (download_pdf_200 _ _ _ body).
    + left. apply download_pdf_failed. rewrite Hans. simpl. now rewrite Hcode.
Qed.

Lemma download_pdf_keeps_store (w : World) (u path : string) (s : State) :
  path <> metadata_path ->
  read_metadata_file (disk (exec (download_pdf w u path) s)) =
  read_metadata_file (disk s).
Proof.
  intros Hne. destruct (download_pdf_disk w u path s) as [-> | [body ->]];
    [reflexivity | now apply read_metadata_file_insert_ne].
Qed.

(** An item page without the "Authors" heading: the attribute access on
    [None] raises before the artifact link is looked for. *)
Lemma process_paper_no_authors_heading (w : World) (page : string)
      (st : State) (soup : Soup) :
  get_page w page = Page soup ->
  find_h4_Authors soup = None ->
  process_paper w page st =
    (Ok tt, {| disk := disk st;
               stdout := (stdout st ++ [Processing_paper_page page])
                           ++ [Error_processing page AttributeError] |}).
Proof.
  intros Hpage Hh4.
  unfold process_paper, process_paper_try, bind, try_except, print, modify,
    ret, raise.
  simpl. rewrite Hpage, Hh4. reflexivity.
Qed.


(** *** Two writers *)

Lemma run_schedule_app (l1 l2 : list bool) (c : threads) :
  run_schedule (l1 ++ l2) c = run_schedule l2 (run_schedule l1 c).
Proof. apply fold_left_app. Qed.

Lemma run_schedule_cons (pick : bool) (l : list bool) (c : threads) :
  run_schedule (pick :: l) c = run_schedule l (schedule_step c pick).
Proof. reflexivity. Qed.

Lemma run_first_finished (n : nat) (t : writer) (d : gmap string file) :
  run_schedule (replicate n true) {| first := Finished; second := t; shared := d |}
  = {| first := Finished; second := t; shared := d |}.
Proof. induction n as [| n IH]; [reflexivity | exact IH]. Qed.

Lemma run_second_finished (n : nat) (t : writer) (d : gmap string file) :
  run_schedule (replicate n false) {| first := t; second := Finished; shared := d |}
  = {| first := t; second := Finished; shared := d |}.
Proof. induction n as [| n IH]; [reflexivity | exact IH]. Qed.

(** A writer that runs alone from [Ready] to [Finished] appends its item. *)
Lemma run_first_alone (n : nat) (a : entry) (t : writer)
      (d : gmap string file) (old : list entry) :
  read_metadata_file d = Ok old -> (2 <= n)%nat ->
  run_schedule (replicate n true) {| first := Ready a; second := t; shared := d |}
  = {| first := Finished; second := t;
       shared := <[metadata_path := JsonRecords (old ++ [a])]> d |}.
Proof.
  intros Hold Hn. destruct n as [| [| n]]; [lia | lia |].
  cbn [replicate]. rewrite !run_schedule_cons.
  unfold schedule_step. cbn [first shared second writer_step]. rewrite Hold.
  cbn [first shared second writer_step]. apply run_first_finished.
Qed.

Lemma run_second_alone (n : nat) (b : entry) (t : writer)
      (d : gmap string file) (old : list entry) :
  read_metadata_file d = Ok old -> (2 <= n)%nat ->
  run_schedule (replicate n false) {| first := t; second := Ready b; shared := d |}
  = {| first := t; second := Finished;
       shared := <[metadata_path := JsonRecords (old ++ [b])]> d |}.
Proof.
  intros Hold Hn. destruct n as [| [| n]]; [lia | lia |].
  cbn [replicate]. rewrite !run_schedule_cons.
  unfold schedule_step. cbn [first shared second writer_step]. rewrite Hold.
  cbn [first shared second writer_step]. apply run_second_finished.
Qed.

Lemma read_metadata_file_insert (d : gmap string file) (l : list entry) :
  read_metadata_file (<[metadata_path := JsonRecords l]> d) = Ok l.
Proof. unfold read_metadata_file. now rewrite lookup_insert_eq. Qed.

(** [save_metadata] is the two steps of a writer, run without a pause. *)
Lemma save_metadata_exec (m : entry) (st : State) (old : list entry) :
  read_metadata_file (disk st) = Ok old ->
  save_metadata m st =
    (Ok tt, {| disk := <[metadata_path := JsonRecords (old ++ [m])]> (disk st);
               stdout := stdout st |}).
Proof.
  intros Hold. unfold save_metadata, load_existing_metadata, bind, write_file, modify.
  now rewrite Hold.
Qed.

(** *** A harvest, and the same page again *)

Lemma downloads_app (l1 l2 : list event) :
  downloads (l1 ++ l2) = downloads l1 ++ downloads l2.
Proof.
  induction l1 as [| ev l1 IH]; [reflexivity |].
  destruct ev; cbn [app downloads]; rewrite IH; reflexivity.
Qed.

Lemma download_pdf_downloads (w : World) (u path : string) (s : State) :
  downloads (stdout (exec (download_pdf w u path) s)) = downloads (stdout s) ++ [u].
Proof.
  unfold exec, download_pdf, bind, try_except, print, write_file, modify, raise.
  simpl. destruct (get_artifact w u) as [msg | code body]; simpl.
  - rewrite !downloads_app. cbn [downloads]. now rewrite app_nil_r.
  - destruct (code =? 200); simpl; rewrite !downloads_app; cbn [downloads];
      now rewrite app_nil_r.
Qed.

(** An item page whose authors are found and whose artifact link is not
    flagged: whether the download succeeds or not, the record is appended
    and one request for the artifact is made. *)
Lemma process_paper_harvest (w : World) (page : string) (st : State)
      (soup : Soup) (h4 : H4Tag) (p : PTag) (text href : string) :
  get_page w page = Page soup ->
  find_h4_Authors soup = Some h4 ->
  find_next_sibling_p h4 = Some p ->
  find_i p = Some text ->
  select_one_pdf soup = Some href ->
  result (is_already_downloaded (BASE_URL +:+ href)) st = Ok false ->
  let st' := exec (process_paper w page) st in
  read_metadata_file (disk st')
    = Ok (records st ++ [metadata_for w soup page text href]) /\
  downloads (stdout st') = downloads (stdout st) ++ [BASE_URL +:+ href].
Proof.
  intros Hpage Hh4 Hp Hi Hlink Hdedup st'.
  apply is_already_downloaded_false in Hdedup as [Hold Hnew].
  unfold st', exec.
  rewrite (process_paper_new_artifact w page st soup h4 href (records st)
             Hpage Hh4 Hlink Hold Hnew).
  rewrite Hp. cbn [mbind option_bind]. rewrite Hi. unfold try_except.
  erewrite save_metadata_exec.
  - cbn [snd disk stdout]. split; [apply read_metadata_file_insert |].
    rewrite download_pdf_downloads. cbn [stdout].
    rewrite !downloads_app. cbn [downloads]. now rewrite !app_nil_r.
  - rewrite download_pdf_keeps_store by apply file_path_of_ne_metadata_path.
    exact Hold.
Qed.

(** The artifact just harvested is still unknown to [is_already_downloaded]:
    the record holds the URL of the page, which is not the URL asked about. *)
Lemma harvest_not_registered (w : World) (page : string) (st : State)
      (soup : Soup) (h4 : H4Tag) (p : PTag) (text href : string) :
  get_page w page = Page soup ->
  find_h4_Authors soup = Some h4 ->
  find_next_sibling_p h4 = Some p ->
  find_i p = Some text ->
  select_one_pdf soup = Some href ->
  result (is_already_downloaded (BASE_URL +:+ href)) st = Ok false ->
  page <> BASE_URL +:+ href ->
  result (is_already_downloaded (BASE_URL +:+ href))
         (exec (process_paper w page) st) = Ok false.
Proof.
  intros Hpage Hh4 Hp Hi Hlink Hdedup Hne.
  destruct (process_paper_harvest w page st soup h4 p text href
              Hpage Hh4 Hp Hi Hlink Hdedup) as [Hread _].
  apply is_already_downloaded_false in Hdedup as [_ Hnew].
  unfold result, is_already_downloaded, load_existing_metadata, bind, ret.
  cbn [fst]. rewrite Hread. cbn [fst]. f_equal.
  rewrite existsb_app, Hnew. cbn [existsb orb]. rewrite orb_false_r.
  unfold matches, metadata_for. cbn [url file_path].
  apply andb_false_intro2. now apply String.eqb_neq.
Qed.

(** So the same page, processed again, is harvested again. *)
Lemma process_paper_twice (w : World) (page : string) (st : State)
      (soup : Soup) (h4 : H4Tag) (p : PTag) (text href : string) :
  get_page w page = Page soup ->
  find_h4_Authors soup = Some h4 ->
  find_next_sibling_p h4 = Some p ->
  find_i p = Some text ->
  select_one_pdf soup = Some href ->
  result (is_already_downloaded (BASE_URL +:+ href)) st = Ok false ->
  page <> BASE_URL +:+ href ->
  let twice := exec (process_paper w page) (exec (process_paper w page) st) in
  let e := metadata_for w soup page text href in
  records twice = records st ++ [e; e] /\
  downloads (stdout twice)
    = downloads (stdout st) ++ [BASE_URL +:+ href; BASE_URL +:+ href].
Proof.
  intros Hpage Hh4 Hp Hi Hlink Hdedup Hne twice e.
  pose proof (harvest_not_registered w page st soup h4 p text href
                Hpage Hh4 Hp Hi Hlink Hdedup Hne) as Hagain.
  destruct (process_paper_harvest w page st soup h4 p text href
              Hpage Hh4 Hp Hi Hlink Hdedup) as [Hread1 Hlog1].
  destruct (process_paper_harvest w page _ soup h4 p text href
              Hpage Hh4 Hp Hi Hlink Hagain) as [Hread2 Hlog2].
  fold twice in Hread2, Hlog2. split.
  - unfold records at 1, stored. rewrite Hread2.
    unfold records at 1, stored. rewrite Hread1.
    now rewrite <- app_assoc.
  - rewrite Hlog2, Hlog1. now rewrite <- app_assoc.
Qed.

End ScrapperFacts.

(** ** The claims about scrapper.py *)

Module ScrapperClaims.
Import Scrapper PyStr ScrapperFacts.

(** C1 (the code departs from the claim).  The crawler harvests the
    sample item: its artifact is fetched from [pdf_url] and saved, and the
    one record stored for it has a non-empty ["file_path"].  Asked about
    that very artifact URL, [is_already_downloaded] still answers false:
    the ["url"] it compares with holds the URL of the item page. *)
Theorem C1_harvested_artifact_not_found :
  let w := Sample.catalog Sample.with_authors (Response 200 Sample.pdf_body) in
  let st := exec (process_paper w Sample.item_url) Sample.empty_state in
  records st = [Sample.item_record] /\
  downloads (stdout st) = [Sample.pdf_url] /\
  disk st !! file_path Sample.item_record = Some (Blob Sample.pdf_body) /\
  truthy (file_path Sample.item_record) = true /\
  url Sample.item_record = Sample.item_url /\
  result (is_already_downloaded Sample.pdf_url) st = Ok false.
Proof. vm_compute. repeat split; reflexivity. Qed.

(** C2 (the code departs from the claim).  The year page of the sample
    catalog is crawled twice by one worker, the catalog unchanged: the
    second crawl fetches the same artifact again and appends the same
    record again, and never prints that it skips. *)
Theorem C2_second_crawl_duplicates :
  let w := Sample.catalog Sample.with_authors (Response 200 Sample.pdf_body) in
  let once := exec (process_year w Sample.year_url) Sample.empty_state in
  let twice := exec (process_year w Sample.year_url) once in
  records once = [Sample.item_record] /\
  downloads (stdout once) = [Sample.pdf_url] /\
  records twice = [Sample.item_record; Sample.item_record] /\
  downloads (stdout twice) = [Sample.pdf_url; Sample.pdf_url] /\
  ~ In (Skipping_already_downloaded Sample.pdf_url) (stdout twice).
Proof.
  vm_compute. repeat split; try reflexivity.
  intros H. repeat (destruct H as [H | H]; [discriminate H |]). exact H.
Qed.

(** C3, as stated, fails: with both loads scheduled before both dumps,
    the item of the first writer is not in the final collection. *)
Lemma C3_lost_update : ~ no_lost_update.
Proof.
  intros H.
  specialize (H [true; false; true; false] Sample.item_record
                Sample.other_record ∅).
  cbv zeta in H.
  assert (Hin : In Sample.item_record
                   (stored (shared (run_schedule [true; false; true; false]
                      (two_calls Sample.item_record Sample.other_record ∅))))).
  { apply H; [split; reflexivity | right; left; reflexivity]. }
  vm_compute in Hin. destruct Hin as [Hin | []]. discriminate Hin.
Qed.

(** C3, amended.  [save_metadata] reads, appends and writes back with no
    critical section.  When two calls do not overlap, one running all its
    steps before the other takes its first, both return and the final
    collection is the previous one followed by the two items, in the
    order of the calls; this is what two calls in sequence compute. *)
Theorem C3_calls_one_after_the_other
        (a b : entry) (d : gmap string file) (old : list entry) (n m : nat) :
  read_metadata_file d = Ok old -> (2 <= n)%nat -> (2 <= m)%nat ->
  let first_then_second :=
    run_schedule (replicate n true ++ replicate m false) (two_calls a b d) in
  let second_then_first :=
    run_schedule (replicate m false ++ replicate n true) (two_calls a b d) in
  both_finished first_then_second /\
  stored (shared first_then_second) = old ++ [a; b] /\
  both_finished second_then_first /\
  stored (shared second_then_first) = old ++ [b; a] /\
  forall st, disk st = d ->
    result (save_metadata a ;; save_metadata b)%py st = Ok tt /\
    records (exec (save_metadata a ;; save_metadata b)%py st) = old ++ [a; b].
Proof.
  intros Hold Hn Hm. cbv zeta. unfold two_calls.
  rewrite !run_schedule_app.
  rewrite (run_first_alone n a _ d old Hold Hn).
  rewrite (run_second_alone m b _ _ (old ++ [a])
             (read_metadata_file_insert d _) Hm).
  rewrite (run_second_alone m b _ d old Hold Hm).
  rewrite (run_first_alone n a _ _ (old ++ [b])
             (read_metadata_file_insert d _) Hn).
  cbn [shared]. rewrite !stored_insert, <- !app_assoc. cbn [app].
  repeat split.
  - unfold result, bind. rewrite (save_metadata_exec a st old) by congruence.
    rewrite (save_metadata_exec b _ (old ++ [a]));
      [reflexivity | apply read_metadata_file_insert].
  - unfold records, exec, bind.
    rewrite (save_metadata_exec a st old) by congruence.
    rewrite (save_metadata_exec b _ (old ++ [a]))
      by apply read_metadata_file_insert.
    cbn [snd disk]. rewrite stored_insert, <- app_assoc. reflexivity.
Qed.

Lemma C3_calls_one_after_the_other_witness :
  stored (shared (run_schedule [true; true; false; false]
            (two_calls Sample.item_record Sample.other_record ∅)))
  = [Sample.item_record; Sample.other_record].
Proof.
  exact (proj1 (proj2 (C3_calls_one_after_the_other
           Sample.item_record Sample.other_record ∅ [] 2 2
           eq_refl (le_n 2) (le_n 2)))).
Defined.





(** C5 (the code departs from the claim).  The sample item page has a
    title and an artifact link and no "Authors" heading: [process_paper]
    raises on the missing heading, prints the error, fetches nothing and
    stores no record. *)
Theorem C5_missing_authors_heading_drops_item :
  let w := Sample.catalog None (Response 200 Sample.pdf_body) in
  let st := exec (process_paper w Sample.item_url) Sample.empty_state in
  find_h4 (Sample.item_soup None) = Some "Example Paper" /\
  select_one_pdf (Sample.item_soup None) = Some Sample.pdf_href /\
  year_of Sample.item_url = 2024 /\
  records st = [] /\
  disk st = ∅ /\
  stdout st = [Processing_paper_page Sample.item_url;
               Error_processing Sample.item_url AttributeError].
Proof.
  cbv zeta. unfold exec.
  rewrite (process_paper_no_authors_heading _ _ _ (Sample.item_soup None))
    by reflexivity.
  repeat split.
Qed.



End ScrapperClaims.

(** ** Facts about annotator.py *)

Module AnnotatorFacts.
Import Annotator PyStr.

Example delays_of_five : delays 0 5 = [2; 4; 8; 16; 32].
Proof. reflexivity. Qed.

Example excerpt_of_three_pages :
  excerpt [" one"; "two"; "three "; "four"]
  = "one" +:+ newline +:+ "two" +:+ newline +:+ "three".
Proof. reflexivity. Qed.

(** *** The classifier client *)

Lemma attempt_once_limited (w : World) (prompt : string) (attempt : nat) (st : State) :
  rate_limited (generate_content w (api_calls st) prompt) = true ->
  attempt_once w prompt attempt st =
    (Ok None, {| disk := disk st; api_calls := S (api_calls st);
                 slept := slept st ++ [API_RETRY_DELAY * 2 ^ Z.of_nat attempt] |}).
Proof.
  unfold attempt_once, try_except, bind, generate, rate_limited.
  destruct (generate_content w (api_calls st) prompt) as [r | msg];
    [discriminate |].
  intros H. cbn [str_exn]. rewrite H. reflexivity.
Qed.

Lemma attempt_once_settled (w : World) (prompt : string) (attempt : nat) (st : State) :
  rate_limited (generate_content w (api_calls st) prompt) = false ->
  attempt_once w prompt attempt st =
    (Ok (Some (returned_for (generate_content w (api_calls st) prompt))),
     {| disk := disk st; api_calls := S (api_calls st); slept := slept st |}).
Proof.
  unfold attempt_once, try_except, bind, generate, rate_limited, returned_for.
  destruct (generate_content w (api_calls st) prompt) as [[text |] | msg];
    try reflexivity.
  intros H. cbn [str_exn]. rewrite H. reflexivity.
Qed.

(** After [k] rate-limit errors the next answer, of any other kind, ends
    the loop. *)
Lemma retry_loop_settles (w : World) (prompt : string) (k : nat) :
  forall (first n : nat) (st : State),
    (k < n)%nat ->
    (forall i, (i < k)%nat ->
       rate_limited (generate_content w (api_calls st + i) prompt) = true) ->
    rate_limited (generate_content w (api_calls st + k) prompt) = false ->
    retry_loop w prompt (seq first n) st =
      (Ok (returned_for (generate_content w (api_calls st + k) prompt)),
       {| disk := disk st; api_calls := api_calls st + k + 1;
          slept := slept st ++ delays first k |}).
Proof.
  induction k as [| k IH]; intros first n st Hk Hlim Hlast.
  - destruct n as [| n]; [lia |]. cbn [seq retry_loop]. unfold bind.
    rewrite Nat.add_0_r in *. rewrite attempt_once_settled by exact Hlast.
    unfold ret, delays. cbn [seq map]. rewrite app_nil_r.
    f_equal; f_equal; lia.
  - destruct n as [| n]; [lia |]. cbn [seq retry_loop]. unfold bind.
    rewrite attempt_once_limited
      by (specialize (Hlim O ltac:(lia)); now rewrite Nat.add_0_r in Hlim).
    rewrite (IH (S first) n); cbn [api_calls disk slept].
    + replace (S (api_calls st) + k)%nat with (api_calls st + S k)%nat by lia.
      unfold delays. cbn [seq map]. rewrite <- app_assoc. cbn [app].
      f_equal; f_equal; lia.
    + lia.
    + intros i Hi. specialize (Hlim (S i) ltac:(lia)).
      now replace (S (api_calls st) + i)%nat with (api_calls st + S i)%nat by lia.
    + now replace (S (api_calls st) + k)%nat with (api_calls st + S k)%nat by lia.
Qed.

(** Rate-limit errors at every attempt: the loop runs out. *)
Lemma retry_loop_exhausted (w : World) (prompt : string) (n : nat) :
  forall (first : nat) (st : State),
    (forall i, (i < n)%nat ->
       rate_limited (generate_content w (api_calls st + i) prompt) = true) ->
    retry_loop w prompt (seq first n) st =
      (Ok "Unknown",
       {| disk := disk st; api_calls := api_calls st + n;
          slept := slept st ++ delays first n |}).
Proof.
  induction n as [| n IH]; intros first st Hlim.
  - cbn [seq retry_loop]. unfold ret, delays. cbn [seq map].
    rewrite app_nil_r, Nat.add_0_r. now destruct st.
  - cbn [seq retry_loop]. unfold bind.
    rewrite attempt_once_limited
      by (specialize (Hlim O ltac:(lia)); now rewrite Nat.add_0_r in Hlim).
    rewrite (IH (S first)); cbn [api_calls disk slept].
    + unfold delays. cbn [seq map]. rewrite <- app_assoc. cbn [app].
      f_equal; f_equal; lia.
    + intros i Hi. specialize (Hlim (S i) ltac:(lia)).
      now replace (S (api_calls st) + i)%nat with (api_calls st + S i)%nat by lia.
Qed.

(** The loop returns a value, whatever the classifier does, and leaves
    the disk alone. *)
Lemma retry_loop_returns (w : World) (prompt : string) (attempts : list nat) :
  forall st, exists v st',
    retry_loop w prompt attempts st = (Ok v, st') /\
    disk st' = disk st /\ (api_calls st <= api_calls st')%nat.
Proof.
  induction attempts as [| attempt rest IH]; intros st.
  - exists "Unknown", st. now repeat split.
  - cbn [retry_loop]. unfold bind.
    destruct (rate_limited (generate_content w (api_calls st) prompt)) eqn:Hlim.
    + rewrite attempt_once_limited by exact Hlim.
      destruct (IH {| disk := disk st; api_calls := S (api_calls st);
                      slept := slept st ++ [API_RETRY_DELAY * 2 ^ Z.of_nat attempt] |})
        as (v & st' & Hrun & Hdisk & Hcalls).
      exists v, st'. cbn [disk api_calls] in *. repeat split; [exact Hrun | exact Hdisk | lia].
    + rewrite attempt_once_settled by exact Hlim.
      eexists _, _. split; [reflexivity |]. cbn [disk api_calls]. split; [reflexivity | lia].
Qed.

(** With at least one attempt allowed the classifier is called. *)
Lemma retry_loop_calls (w : World) (prompt : string) (attempt : nat)
      (rest : list nat) (st : State) :
  exists v st',
    retry_loop w prompt (attempt :: rest) st = (Ok v, st') /\
    disk st' = disk st /\ (api_calls st < api_calls st')%nat.
Proof.
  cbn [retry_loop]. unfold bind.
  destruct (rate_limited (generate_content w (api_calls st) prompt)) eqn:Hlim.
  - rewrite attempt_once_limited by exact Hlim.
    destruct (retry_loop_returns w prompt rest
                {| disk := disk st; api_calls := S (api_calls st);
                   slept := slept st ++ [API_RETRY_DELAY * 2 ^ Z.of_nat attempt] |})
      as (v & st' & Hrun & Hdisk & Hcalls).
    exists v, st'. cbn [disk api_calls] in *. repeat split; [exact Hrun | exact Hdisk | lia].
  - rewrite attempt_once_settled by exact Hlim.
    eexists _, _. split; [reflexivity |]. cbn [disk api_calls]. split; [reflexivity | lia].
Qed.

Lemma annotate_text_calls (w : World) (text : string) (st : State) :
  exists a st',
    annotate_text w text st = (Ok a, st') /\
    disk st' = disk st /\ (api_calls st < api_calls st')%nat.
Proof. apply retry_loop_calls. Qed.


(** *** The enrichment worker *)

Lemma extract_text_failed (w : World) (path : string) (st : State) :
  extraction_fails w (disk st) path = true ->
  extract_text_from_pdf w path st = (Ok "", st).
Proof.
  unfold extraction_fails, extract_text_from_pdf, bind, is_valid_pdf,
    try_except, fitz_open, ret.
  destruct (valid_pdf (disk st) path); cbn [negb orb]; [| reflexivity].
  destruct (page_texts w (disk st) path); [discriminate | reflexivity].
Qed.

Lemma extract_text_read (w : World) (path : string) (st : State) (doc : list string) :
  valid_pdf (disk st) path = true ->
  page_texts w (disk st) path = Some doc ->
  extract_text_from_pdf w path st =
    (Ok (if truthy (excerpt doc) then excerpt doc else "No text found"), st).
Proof.
  intros Hvalid Hdoc.
  unfold extract_text_from_pdf, bind, is_valid_pdf, try_except, fitz_open, ret.
  rewrite Hvalid. cbn [negb]. rewrite Hdoc. reflexivity.
Qed.

Lemma assign_annotation_lookup (i : nat) (a : string) (metadata : list entry)
      (e : entry) :
  metadata !! i = Some e ->
  assign_annotation i a metadata = <[i := set_annotation a e]> metadata.
Proof. intros H. unfold assign_annotation. now rewrite H. Qed.

(** A record whose extraction fails is labelled ["Unknown"] and the
    state is untouched: no call of the classifier, no sleep. *)
Lemma annotate_entry_failed (w : World) (metadata : list entry) (i : nat)
      (e : entry) (st : State) :
  metadata !! i = Some e ->
  extraction_fails w (disk st) (file_path e) = true ->
  annotate_entry w metadata i st =
    (Ok (<[i := set_annotation "Unknown" e]> metadata), st).
Proof.
  intros He Hfail. unfold annotate_entry. rewrite He.
  unfold bind at 1. unfold is_valid_pdf at 1.
  rewrite (assign_annotation_lookup _ _ _ _ He).
  destruct (valid_pdf (disk st) (file_path e)) eqn:Hvalid; cbn [negb];
    [| reflexivity].
  unfold bind at 1. rewrite extract_text_failed by exact Hfail. reflexivity.
Qed.

(** A record whose document opens is sent to the classifier, with the
    placeholder in place of an empty excerpt. *)
Lemma annotate_entry_read (w : World) (metadata : list entry) (i : nat)
      (e : entry) (st : State) (doc : list string) :
  metadata !! i = Some e ->
  valid_pdf (disk st) (file_path e) = true ->
  page_texts w (disk st) (file_path e) = Some doc ->
  let text := if truthy (excerpt doc) then excerpt doc else "No text found" in
  annotate_entry w metadata i st =
    (a <- annotate_text w text ;;
     sleep 2 ;;
     ret (<[i := set_annotation a e]> metadata))%py st.
Proof.
  intros He Hvalid Hdoc text. unfold annotate_entry. rewrite He.
  unfold bind at 1. unfold is_valid_pdf at 1. rewrite Hvalid. cbn [negb].
  unfold bind at 1. rewrite (extract_text_read w _ st doc Hvalid Hdoc).
  fold text.
  assert (Htext : truthy text = true)
    by (unfold text; destruct (truthy (excerpt doc)) eqn:H; [exact H | reflexivity]).
  rewrite Htext. cbn [negb].
  unfold bind. destruct (annotate_text w text st) as [[a | err] st1]; [| reflexivity].
  now rewrite (assign_annotation_lookup _ _ _ _ He).
Qed.

(** Every round of the loop returns, labels its record and leaves the
    disk alone. *)
Lemma annotate_entry_effect (w : World) (metadata : list entry) (i : nat)
      (e : entry) (st : State) :
  metadata !! i = Some e ->
  exists a st',
    annotate_entry w metadata i st =
      (Ok (<[i := set_annotation a e]> metadata), st') /\
    disk st' = disk st /\
    (extraction_fails w (disk st) (file_path e) = true -> a = "Unknown").
Proof.
  intros He.
  destruct (extraction_fails w (disk st) (file_path e)) eqn:Hfail.
  - exists "Unknown", st. rewrite (annotate_entry_failed w _ _ e) by assumption.
    now repeat split.
  - unfold extraction_fails in Hfail. apply orb_false_elim in Hfail as [Hvalid Hdoc].
    apply negb_false_iff in Hvalid.
    destruct (page_texts w (disk st) (file_path e)) as [doc |] eqn:Hpages;
      [| discriminate].
    rewrite (annotate_entry_read w _ _ e st doc He Hvalid Hpages).
    destruct (annotate_text_calls w
                (if truthy (excerpt doc) then excerpt doc else "No text found") st)
      as (a & st1 & Hrun & Hdisk & _).
    exists a. eexists. unfold bind. rewrite Hrun. cbn [sleep modify ret].
    split; [reflexivity |]. cbn [disk]. split; [exact Hdisk | discriminate].
Qed.

Lemma annotate_loop_effect (w : World) (d : gmap string file) (l : list entry) :
  forall (pre : list entry) (st : State),
    disk st = d ->
    exists l' st',
      annotate_loop w (unannotated_from (length pre) l) (pre ++ l) st
        = (Ok (pre ++ l'), st') /\
      disk st' = d /\
      Forall2 (pass_effect w d) l l'.
Proof.
  induction l as [| e rest IH]; intros pre st Hd.
  - exists [], st. cbn [unannotated_from annotate_loop]. repeat split; [exact Hd | constructor].
  - cbn [unannotated_from]. destruct (annotation e) as [a |] eqn:Hlabel.
    + destruct (IH (pre ++ [e]) st Hd) as (l' & st' & Hrun & Hd' & Hall).
      rewrite length_app in Hrun. cbn [length] in Hrun.
      rewrite Nat.add_1_r, <- app_assoc in Hrun. cbn [app] in Hrun.
      exists (e :: l'), st'. rewrite Hrun, <- app_assoc. cbn [app].
      repeat split; [exact Hd' |]. constructor; [| exact Hall].
      unfold pass_effect. now rewrite Hlabel.
    + cbn [annotate_loop]. unfold bind at 1.
      assert (He : (pre ++ e :: rest) !! length pre = Some e)
        by now apply list_lookup_middle.
      destruct (annotate_entry_effect w _ _ e st He) as (a & st1 & Hrun1 & Hd1 & Hfail).
      rewrite Hrun1.
      rewrite insert_app_r_alt, Nat.sub_diag by lia. cbn [insert list_insert].
      destruct (IH (pre ++ [set_annotation a e]) st1 ltac:(congruence))
        as (l' & st' & Hrun & Hd' & Hall).
      rewrite length_app in Hrun. cbn [length] in Hrun.
      rewrite Nat.add_1_r, <- app_assoc in Hrun. cbn [app] in Hrun.
      exists (set_annotation a e :: l'), st'. rewrite Hrun, <- app_assoc. cbn [app].
      repeat split; [exact Hd' |]. constructor; [| exact Hall].
      unfold pass_effect. rewrite Hlabel. exists a. split; [reflexivity |].
      now rewrite <- Hd.
Qed.

Lemma unannotated_from_nil (l : list entry) :
  forall i, unannotated_from i l = [] -> Forall (fun e => is_Some (annotation e)) l.
Proof.
  induction l as [| e rest IH]; intros i H; [constructor |].
  cbn [unannotated_from] in H. destruct (annotation e) as [a |] eqn:Hlabel;
    [| discriminate].
  constructor; [rewrite Hlabel; eauto | eapply IH, H].
Qed.

Lemma pass_effect_labelled (w : World) (d : gmap string file) (l : list entry) :
  Forall (fun e => is_Some (annotation e)) l -> Forall2 (pass_effect w d) l l.
Proof.
  induction 1 as [| e rest [a Ha] _ IH]; constructor; [| exact IH].
  unfold pass_effect. now rewrite Ha.
Qed.

(** One pass, record by record. *)
Lemma annotate_papers_effect (w : World) (st : State) :
  Forall2 (pass_effect w (disk st))
          (records st) (records (exec (annotate_papers w) st)).
Proof.
  unfold records, stored, exec, annotate_papers. unfold bind at 1.
  unfold load_metadata.
  destruct (read_metadata_file (disk st)) as [l | err] eqn:Hread; cbn [snd];
    [| rewrite Hread; constructor].
  destruct l as [| e rest]; [cbn [ret snd]; rewrite Hread; constructor |].
  lazy iota beta. remember (e :: rest) as l eqn:Hl.
  destruct (unannotated_from 0 l) as [| i idx] eqn:Hidx.
  - cbn [ret snd]. rewrite Hread.
    apply pass_effect_labelled. eapply unannotated_from_nil, Hidx.
  - destruct (annotate_loop_effect w (disk st) l [] st eq_refl)
      as (l' & st' & Hrun & Hd' & Hall).
    cbn [length app] in Hrun. rewrite Hidx in Hrun.
    unfold bind. rewrite Hrun. cbn [save_metadata modify snd disk].
    unfold read_metadata_file. rewrite lookup_insert_eq. exact Hall.
Qed.

End AnnotatorFacts.

(** ** The claims about annotator.py *)

Module AnnotatorClaims.
Import Annotator PyStr AnnotatorFacts.

(** C6, as stated, fails: the artifact of the sample record opens and
    its pages hold white space only, yet the classifier is called and the
    label stored is its answer, not ["Unknown"]. *)
Lemma C6_empty_text_is_classified :
  let st := exec (annotate_papers Sample.blank_pages) Sample.harvested in
  extraction_empty Sample.blank_pages (disk Sample.harvested)
                   (file_path Sample.item_record) = true /\
  records st = [set_annotation "Optimization" Sample.item_record] /\
  api_calls Sample.harvested = 0%nat /\ api_calls st = 1%nat.
Proof. vm_compute. repeat split; reflexivity. Qed.

(** C6, amended.  For an unlabelled record whose extraction fails (the
    artifact is missing or empty, or PyMuPDF raises), the round of the
    loop sets the label to ["Unknown"] and leaves the state as it was, so
    the classifier is not called, and that is the label after the pass.
    When the extraction yields empty text, [extract_text_from_pdf] returns
    the placeholder ["No text found"]: the classifier is called on it and
    its answer is the label. *)
Theorem C6_failed_extraction_labelled_unknown
        (w : World) (st : State) (i : nat) (e : entry) :
  records st !! i = Some e ->
  annotation e = None ->
  (extraction_fails w (disk st) (file_path e) = true ->
     (forall metadata s, metadata !! i = Some e -> disk s = disk st ->
        annotate_entry w metadata i s =
          (Ok (<[i := set_annotation "Unknown" e]> metadata), s)) /\
     records (exec (annotate_papers w) st) !! i
       = Some (set_annotation "Unknown" e)) /\
  (extraction_empty w (disk st) (file_path e) = true ->
     forall metadata s, metadata !! i = Some e -> disk s = disk st ->
       extract_text_from_pdf w (file_path e) s = (Ok "No text found", s) /\
       exists a s',
         annotate_text w "No text found" s = (Ok a, s') /\
         (api_calls s < api_calls s')%nat /\
         annotate_entry w metadata i s =
           (Ok (<[i := set_annotation a e]> metadata), exec (sleep 2) s')).
Proof.
  intros He Hlabel. split.
  - intros Hfail. split.
    + intros metadata s Hm Hs. apply annotate_entry_failed; [exact Hm |].
      now rewrite Hs.
    + destruct (Forall2_lookup_l _ _ _ i e (annotate_papers_effect w st) He)
        as (e' & He' & Heff).
      unfold pass_effect in Heff. rewrite Hlabel in Heff.
      destruct Heff as (a & -> & Ha). now rewrite (Ha Hfail) in He'.
  - intros Hempty metadata s Hm Hs. unfold extraction_empty in Hempty.
    apply andb_prop in Hempty as [Hvalid Hdoc].
    destruct (page_texts w (disk st) (file_path e)) as [doc |] eqn:Hpages;
      [| discriminate].
    apply negb_true_iff in Hdoc. rewrite <- Hs in Hvalid, Hpages.
    split.
    + rewrite (extract_text_read w _ s doc Hvalid Hpages). now rewrite Hdoc.
    + destruct (annotate_text_calls w "No text found" s)
        as (a & s' & Hrun & _ & Hcalls).
      exists a, s'. split; [exact Hrun |]. split; [exact Hcalls |].
      rewrite (annotate_entry_read w _ _ e s doc Hm Hvalid Hpages).
      rewrite Hdoc. unfold bind. rewrite Hrun. reflexivity.
Qed.

Lemma C6_failed_extraction_labelled_unknown_witness :
  extraction_fails Sample.unreadable (disk Sample.harvested)
                   (file_path Sample.item_record) = true /\
  records (exec (annotate_papers Sample.unreadable) Sample.harvested) !! 0%nat
    = Some (set_annotation "Unknown" Sample.item_record).
Proof.
  split; [reflexivity |].
  exact (proj2 (proj1 (C6_failed_extraction_labelled_unknown
                  Sample.unreadable Sample.harvested 0 Sample.item_record
                  eq_refl eq_refl) eq_refl)).
Defined.

(** C7.  When the classifier raises a rate-limit error on exactly the
    first [k < 5] calls and then answers, [call_gemini_with_retry] returns
    that answer (stripped), after [k + 1] calls and exactly [k] sleeps, the
    sleep after attempt [i] lasting [2 * 2^i] seconds. *)
Theorem C7_retry_backoff
        (w : World) (prompt text : string) (st : State) (k : nat) :
  (k < 5)%nat ->
  (forall i, (i < k)%nat ->
     rate_limited (generate_content w (api_calls st + i) prompt) = true) ->
  generate_content w (api_calls st + k) prompt = Answer (Some text) ->
  let st' := exec (call_gemini_with_retry w prompt API_RETRY_LIMIT) st in
  result (call_gemini_with_retry w prompt API_RETRY_LIMIT) st = Ok (strip text) /\
  slept st' = slept st ++ map (fun i => 2 * 2 ^ Z.of_nat i) (seq 0 k) /\
  length (map (fun i => 2 * 2 ^ Z.of_nat i) (seq 0 k)) = k /\
  api_calls st' = (api_calls st + k + 1)%nat.
Proof.
  intros Hk Hlim Hans st'. unfold st', result, exec, call_gemini_with_retry.
  rewrite (retry_loop_settles w prompt k 0 API_RETRY_LIMIT st Hk Hlim)
    by now rewrite Hans.
  rewrite Hans. cbn [fst snd slept api_calls returned_for].
  repeat split. now rewrite length_map, length_seq.
Qed.

Lemma C7_retry_backoff_witness :
  let w := Sample.throttled 2 (Answer (Some " Computer Vision ")) in
  result (call_gemini_with_retry w "prompt" API_RETRY_LIMIT) Sample.harvested
    = Ok "Computer Vision" /\
  slept (exec (call_gemini_with_retry w "prompt" API_RETRY_LIMIT) Sample.harvested)
    = [2; 4].
Proof.
  destruct (C7_retry_backoff
              (Sample.throttled 2 (Answer (Some " Computer Vision ")))
              "prompt" " Computer Vision " Sample.harvested 2
              ltac:(lia)
              ltac:(intros [| [| i]] Hi; [reflexivity | reflexivity | lia])
              eq_refl)
    as (Hres & Hslept & _ & _).
  split; [exact Hres | exact Hslept].
Defined.

(** C8.  [call_gemini_with_retry] always returns a value, whatever the
    classifier does and whatever the attempt limit.  An error that is not
    a rate-limit error, after [k < 5] rate-limit errors, makes it return
    ["Unknown"] with no further call; rate-limit errors at all five
    attempts make it return ["Unknown"] after the fifth. *)
Theorem C8_classify_never_raises (w : World) (prompt : string) (st : State) :
  (forall max_retries, exists value st',
     call_gemini_with_retry w prompt max_retries st = (Ok value, st')) /\
  (forall k msg, (k < 5)%nat ->
     (forall i, (i < k)%nat ->
        rate_limited (generate_content w (api_calls st + i) prompt) = true) ->
     generate_content w (api_calls st + k) prompt = Raises msg ->
     contains "429" msg = false ->
     call_gemini_with_retry w prompt API_RETRY_LIMIT st =
       (Ok "Unknown",
        {| disk := disk st; api_calls := api_calls st + k + 1;
           slept := slept st ++ delays 0 k |})) /\
  ((forall i, (i < 5)%nat ->
      rate_limited (generate_content w (api_calls st + i) prompt) = true) ->
   call_gemini_with_retry w prompt API_RETRY_LIMIT st =
     (Ok "Unknown",
      {| disk := disk st; api_calls := api_calls st + 5;
         slept := slept st ++ [2; 4; 8; 16; 32] |})).
Proof.
  split; [| split].
  - intros max_retries.
    destruct (retry_loop_returns w prompt (seq 0 max_retries) st)
      as (v & st' & Hrun & _).
    now exists v, st'.
  - intros k msg Hk Hlim Hans Hmsg. unfold call_gemini_with_retry.
    rewrite (retry_loop_settles w prompt k 0 API_RETRY_LIMIT st Hk Hlim)
      by (rewrite Hans; exact Hmsg).
    now rewrite Hans.
  - intros Hlim. unfold call_gemini_with_retry.
    now rewrite (retry_loop_exhausted w prompt API_RETRY_LIMIT 0 st Hlim).
Qed.

Lemma C8_classify_never_raises_witness :
  call_gemini_with_retry (Sample.throttled 1 (Raises "500 Internal error"))
                         "prompt" API_RETRY_LIMIT Sample.harvested
  = (Ok "Unknown",
     {| disk := disk Sample.harvested; api_calls := 2; slept := [2] |}) /\
  call_gemini_with_retry (Sample.throttled 5 (Answer None))
                         "prompt" API_RETRY_LIMIT Sample.harvested
  = (Ok "Unknown",
     {| disk := disk Sample.harvested; api_calls := 5;
        slept := [2; 4; 8; 16; 32] |}).
Proof.
  split.
  - exact (proj1 (proj2 (C8_classify_never_raises
             (Sample.throttled 1 (Raises "500 Internal error"))
             "prompt" Sample.harvested))
             1%nat "500 Internal error" ltac:(lia)
             ltac:(intros [| i] Hi; [reflexivity | lia]) eq_refl eq_refl).
  - exact (proj2 (proj2 (C8_classify_never_raises
             (Sample.throttled 5 (Answer None)) "prompt" Sample.harvested))
             ltac:(intros [| [| [| [| [| i]]]]] Hi; (reflexivity || lia))).
Defined.

(** C9.  A pass of [annotate_papers] keeps the number and the order of
    the records.  A record that has a label, ["Unknown"] or any other, is
    after the pass what it was before, in every field; a record that has
    none differs from what it was in its label only, which is now set. *)
Theorem C9_pass_mutates_unlabelled_only (w : World) (st : State) :
  let st' := exec (annotate_papers w) st in
  length (records st') = length (records st) /\
  (forall i e a, records st !! i = Some e -> annotation e = Some a ->
     records st' !! i = Some e) /\
  (forall i e, records st !! i = Some e -> annotation e = None ->
     exists a, records st' !! i = Some (set_annotation a e)).
Proof.
  intros st'. pose proof (annotate_papers_effect w st) as Hall. fold st' in Hall.
  split; [symmetry; eapply Forall2_length, Hall |]. split.
  - intros i e a He Hlabel.
    destruct (Forall2_lookup_l _ _ _ i e Hall He) as (e' & He' & Heff).
    unfold pass_effect in Heff. rewrite Hlabel in Heff. now subst e'.
  - intros i e He Hlabel.
    destruct (Forall2_lookup_l _ _ _ i e Hall He) as (e' & He' & Heff).
    unfold pass_effect in Heff. rewrite Hlabel in Heff.
    destruct Heff as (a & -> & _). now exists a.
Qed.

Lemma C9_pass_mutates_unlabelled_only_witness :
  records (exec (annotate_papers Sample.blank_pages) Sample.relabel) !! 0%nat
    = Some (set_annotation "Unknown" Sample.other_record) /\
  exists a,
    records (exec (annotate_papers Sample.blank_pages) Sample.relabel) !! 1%nat
      = Some (set_annotation a Sample.item_record).
Proof.
  split.
  - exact (proj1 (proj2 (C9_pass_mutates_unlabelled_only
             Sample.blank_pages Sample.relabel))
             0%nat (set_annotation "Unknown" Sample.other_record) "Unknown"
             eq_refl eq_refl).
  - exact (proj2 (proj2 (C9_pass_mutates_unlabelled_only
             Sample.blank_pages Sample.relabel))
             1%nat Sample.item_record eq_refl eq_refl).
Defined.

End AnnotatorClaims.

(** ** More about scrapper.py *)

Module ScrapperMore.
Import Scrapper PyStr ScrapperFacts.

Lemma year_pages_app (l1 l2 : list event) :
  year_pages (l1 ++ l2) = year_pages l1 ++ year_pages l2.
Proof.
  induction l1 as [| ev l1 IH]; [reflexivity |].
  destruct ev; cbn [app year_pages]; rewrite IH; reflexivity.
Qed.

(** The fetcher prints two lines, and its effect on the disk does not
    depend on what was printed before. *)
Lemma download_pdf_exec (w : World) (u path : string) (s : State) :
  exists ev,
    exec (download_pdf w u path) s =
      {| disk := disk_after_download w u path (disk s);
         stdout := stdout s ++ [Downloading u; ev] |} /\
    downloads [ev] = [] /\ year_pages [ev] = [].
Proof.
  unfold exec, download_pdf, bind, try_except, print, write_file, modify, raise,
    disk_after_download.
  cbn [snd disk stdout]. destruct (get_artifact w u) as [msg | code body].
  - exists (Error_downloading u (RequestException msg)).
    cbn [snd disk stdout]. rewrite <- app_assoc. repeat split.
  - destruct (Z.eqb_spec code 200) as [-> | Hne].
    + exists (Saved path). cbn [snd disk stdout]. rewrite <- app_assoc. repeat split.
    + exists (Failed_to_download u code). cbn [snd disk stdout].
      rewrite <- app_assoc. split; [| repeat split].
      destruct code as [| c | c]; try reflexivity.
      repeat (destruct c as [c | c |]; try reflexivity). congruence.
Qed.

Lemma disk_after_download_store (w : World) (y : Z) (u : string) (d : gmap string file) :
  read_metadata_file (disk_after_download w u (file_path_of y u) d)
  = read_metadata_file d.
Proof.
  unfold disk_after_download.
  destruct (get_artifact w u) as [msg | code body]; [reflexivity |].
  destruct code as [| c | c]; try reflexivity.
  repeat (destruct c as [c | c |]; try reflexivity).
  apply read_metadata_file_insert_ne, file_path_of_ne_metadata_path.
Qed.

(** Every way a call of [process_paper] can go.  Either the disk is as it
    was and nothing was requested, or the page has a new artifact link: then
    one request was made, the disk is the one the fetcher leaves, and the
    store on it is either as it was or one record longer. *)
Lemma process_paper_outcome (w : World) (page : string) (st : State) :
  let st' := exec (process_paper w page) st in
  exists evs,
    stdout st' = stdout st ++ evs /\ year_pages evs = [] /\
    ((disk st' = disk st /\ downloads evs = []) \/
     (exists soup href old,
        get_page w page = Page soup /\
        select_one_pdf soup = Some href /\
        read_metadata_file (disk st) = Ok old /\
        existsb (matches (BASE_URL +:+ href)) old = false /\
        downloads evs = [BASE_URL +:+ href] /\
        let d2 := disk_after_download w (BASE_URL +:+ href)
                    (file_path_of (year_of page) (BASE_URL +:+ href)) (disk st) in
        (disk st' = d2 \/
         exists text,
           disk st' = <[metadata_path :=
                          JsonRecords (old ++ [metadata_for w soup page text href])]> d2))).
Proof.
  intros st'. subst st'.
  destruct (get_page w page) as [msg | soup] eqn:Hpage.
  { exists [Processing_paper_page page; Error_processing page (RequestException msg)].
    unfold exec, process_paper, process_paper_try, bind, try_except, print, modify, raise.
    cbn [snd disk stdout]. rewrite Hpage. cbn [snd disk stdout].
    rewrite <- app_assoc. repeat split. left. now split. }
  destruct (find_h4_Authors soup) as [h4 |] eqn:Hh4.
  2:{ exists [Processing_paper_page page; Error_processing page AttributeError].
      unfold exec. rewrite (process_paper_no_authors_heading w page st soup Hpage Hh4).
      cbn [snd disk stdout]. rewrite <- app_assoc. repeat split. left. now split. }
  destruct (select_one_pdf soup) as [href |] eqn:Hlink.
  2:{ exists [Processing_paper_page page].
      unfold exec, process_paper, process_paper_try, bind, try_except, print, modify,
        ret, raise.
      cbn [snd disk stdout]. rewrite Hpage, Hh4, Hlink. cbn [snd disk stdout].
      repeat split. left. now split. }
  destruct (read_metadata_file (disk st)) as [old | err] eqn:Hold.
  2:{ exists [Processing_paper_page page; Error_processing page err].
      unfold exec, process_paper, process_paper_try, is_already_downloaded,
        load_existing_metadata, bind, try_except, print, modify, ret, raise.
      cbn [snd disk stdout]. rewrite Hpage, Hh4, Hlink. cbn [snd disk stdout].
      rewrite Hold. cbn [snd disk stdout].
      rewrite <- app_assoc. repeat split. left. now split. }
  destruct (existsb (matches (BASE_URL +:+ href)) old) eqn:Hnew.
  { exists [Processing_paper_page page; Skipping_already_downloaded (BASE_URL +:+ href)].
    unfold exec, process_paper, process_paper_try, is_already_downloaded,
      load_existing_metadata, bind, try_except, print, modify, ret, raise.
    cbn [snd disk stdout]. rewrite Hpage, Hh4, Hlink. cbn [snd disk stdout].
    rewrite Hold. cbn [snd disk stdout]. rewrite Hnew. cbn [snd disk stdout].
    rewrite <- app_assoc. repeat split. left. now split. }
  unfold exec.
  rewrite (process_paper_new_artifact w page st soup h4 href old
             Hpage Hh4 Hlink Hold Hnew).
  set (pdf_url := BASE_URL +:+ href).
  set (path := file_path_of (year_of page) pdf_url).
  destruct (download_pdf_exec w pdf_url path
              {| disk := disk st;
                 stdout := (stdout st ++ [Processing_paper_page page])
                             ++ [Found_PDF pdf_url] |})
    as (ev & Hdl & Hev1 & Hev2).
  cbn [disk stdout] in Hdl. rewrite Hdl.
  assert (Hread : read_metadata_file (disk_after_download w pdf_url path (disk st))
                  = Ok old)
    by (unfold path; now rewrite disk_after_download_store).
  destruct (find_next_sibling_p h4 ≫= find_i) as [text |].
  - exists [Processing_paper_page page; Found_PDF pdf_url; Downloading pdf_url; ev].
    unfold try_except. erewrite save_metadata_exec by exact Hread.
    cbn [snd disk stdout]. rewrite <- !app_assoc. cbn [app].
    split; [reflexivity |]. split; [exact Hev2 |]. right.
    exists soup, href, old. repeat split; try assumption.
    + cbn [downloads]. cbn [downloads] in Hev1. now rewrite Hev1.
    + right. exists text. reflexivity.
  - exists [Processing_paper_page page; Found_PDF pdf_url; Downloading pdf_url; ev;
            Error_processing page UnboundLocalError].
    unfold print, modify. cbn [snd disk stdout]. rewrite <- !app_assoc. cbn [app].
    split; [reflexivity |]. split.
    + cbn [year_pages]. cbn [year_pages] in Hev2.
      destruct ev; try reflexivity; discriminate Hev2.
    + right. exists soup, href, old. repeat split; try assumption.
      * cbn [downloads]. destruct ev; try reflexivity; discriminate Hev1.
      * left. reflexivity.
Qed.

(** One call, as a change of the store: the lines printed, the records
    appended (none or one, and one only after a request), the store kept
    readable. *)
Lemma process_paper_step (w : World) (page : string) (st : State) :
  let st' := exec (process_paper w page) st in
  exists evs new,
    stdout st' = stdout st ++ evs /\ year_pages evs = [] /\
    read_metadata_file (disk st') =
      match read_metadata_file (disk st) with
      | Ok old => Ok (old ++ new)
      | Raise e => Raise e
      end /\
    Forall (fresh_record page) new /\
    (length new <= length (downloads evs))%nat /\
    (length (downloads evs) <= 1)%nat.
Proof.
  intros st'.
  destruct (process_paper_outcome w page st) as (evs & Hlog & Hyear & Hcases).
  fold st' in Hlog, Hcases. exists evs.
  destruct Hcases as [[Hdisk Hdl] | (soup & href & old & _ & _ & Hold & _ & Hdl & Hcases)].
  - exists []. rewrite Hdisk, Hdl.
    repeat split; try assumption; try constructor.
    destruct (read_metadata_file (disk st)); [now rewrite app_nil_r | reflexivity].
    cbn. lia.
  - cbv zeta in Hcases. rewrite Hold, Hdl.
    destruct Hcases as [Hdisk | [text Hdisk]].
    + exists []. rewrite Hdisk, disk_after_download_store, Hold, app_nil_r.
      repeat split; try assumption; try constructor. cbn. lia.
    + exists [metadata_for w soup page text href].
      rewrite Hdisk, read_metadata_file_insert.
      repeat split; try assumption; try (cbn; lia).
      constructor; [| constructor].
      unfold fresh_record, metadata_for. cbn [url year file_path annotation].
      repeat split. apply file_path_of_truthy.
Qed.

(** The loop of [process_year], link after link. *)
Lemma for_each_process_paper_step (w : World) (hrefs : list string) :
  forall st,
    let st' := exec (for_each (fun h => process_paper w (BASE_URL +:+ h)) hrefs) st in
    exists evs new,
      stdout st' = stdout st ++ evs /\ year_pages evs = [] /\
      read_metadata_file (disk st') =
        match read_metadata_file (disk st) with
        | Ok old => Ok (old ++ new)
        | Raise e => Raise e
        end /\
      Forall (fun e => truthy (file_path e) = true /\ annotation e = None) new /\
      (length new <= length (downloads evs))%nat /\
      (length (downloads evs) <= length hrefs)%nat.
Proof.
  induction hrefs as [| href rest IH]; intros st st'.
  - exists [], []. subst st'. cbn [for_each exec ret snd length downloads].
    rewrite app_nil_r. repeat split; try constructor.
    destruct (read_metadata_file (disk st)); [now rewrite app_nil_r | reflexivity].
  - subst st'. unfold exec. rewrite for_each_process_paper_cons.
    destruct (process_paper_step w (BASE_URL +:+ href) st)
      as (evs1 & new1 & Hlog1 & Hy1 & Hread1 & Hnew1 & Hlen1 & Hone1).
    set (st1 := exec (process_paper w (BASE_URL +:+ href)) st) in *.
    destruct (IH st1) as (evs2 & new2 & Hlog2 & Hy2 & Hread2 & Hnew2 & Hlen2 & Hmany2).
    unfold exec in Hlog2, Hread2.
    exists (evs1 ++ evs2), (new1 ++ new2).
    rewrite Hlog2, Hlog1, Hread2, Hread1, year_pages_app, Hy1, Hy2, downloads_app,
      !length_app, <- app_assoc.
    split; [reflexivity |]. split; [reflexivity |]. split.
    { destruct (read_metadata_file (disk st)); [now rewrite <- app_assoc | reflexivity]. }
    split; [| cbn [length]; lia].
    apply Forall_app. split; [| exact Hnew2].
    eapply Forall_impl; [exact Hnew1 |]. intros e (_ & _ & Hp & Ha). now split.
Qed.

(** [process_year], by the answer of the year page. *)
Lemma process_year_exec (w : World) (year_url : string) (st : State) :
  process_year w year_url st =
    match get_page w year_url with
    | PageFailure msg =>
        (Ok tt, {| disk := disk st;
                   stdout := stdout st ++
                     [Processing_year_page year_url;
                      Error_processing_year year_url (RequestException msg)] |})
    | Page soup =>
        for_each (fun h => process_paper w (BASE_URL +:+ h)) (select_html soup)
                 {| disk := disk st;
                    stdout := stdout st ++ [Processing_year_page year_url] |}
    end.
Proof.
  unfold process_year, bind, try_except, print, modify, raise, ret.
  destruct (get_page w year_url) as [msg | soup]; cbn [disk stdout].
  - now rewrite <- app_assoc.
  - pose proof (for_each_process_paper_result w (select_html soup)
                  {| disk := disk st;
                     stdout := stdout st ++ [Processing_year_page year_url] |}) as H.
    unfold result in H.
    destruct (for_each _ (select_html soup) _) as [r s2]. cbn [fst] in H. now subst r.
Qed.

(** One year page, as a change of the store. *)
Lemma process_year_step (w : World) (year_url : string) (st : State) :
  let st' := exec (process_year w year_url) st in
  result (process_year w year_url) st = Ok tt /\
  exists evs new,
    stdout st' = stdout st ++ evs /\
    year_pages evs = [year_url] /\
    read_metadata_file (disk st') =
      match read_metadata_file (disk st) with
      | Ok old => Ok (old ++ new)
      | Raise e => Raise e
      end /\
    Forall (fun e => truthy (file_path e) = true /\ annotation e = None) new /\
    (length new <= length (downloads evs))%nat /\
    (length (downloads evs) <=
       match get_page w year_url with
       | Page soup => length (select_html soup)
       | PageFailure _ => 0
       end)%nat.
Proof.
  intros st'. subst st'. unfold result, exec. rewrite process_year_exec.
  destruct (get_page w year_url) as [msg | soup].
  - cbn [fst snd disk stdout]. split; [reflexivity |].
    exists [Processing_year_page year_url;
            Error_processing_year year_url (RequestException msg)], [].
    repeat split; try constructor.
    destruct (read_metadata_file (disk st)); [now rewrite app_nil_r | reflexivity].
  - set (st1 := {| disk := disk st;
                   stdout := stdout st ++ [Processing_year_page year_url] |}).
    pose proof (for_each_process_paper_result w (select_html soup) st1) as Hres.
    destruct (for_each_process_paper_step w (select_html soup) st1)
      as (evs & new & Hlog & Hy & Hread & Hnew & Hlen & Hmany).
    unfold result, exec in Hres, Hlog, Hread.
    destruct (for_each _ (select_html soup) st1) as [r st2].
    cbn [fst snd] in *. subst r. split; [reflexivity |].
    exists (Processing_year_page year_url :: evs), new.
    rewrite Hlog, Hread. cbn [st1 disk stdout year_pages downloads].
    rewrite Hy, <- app_assoc. repeat split; assumption.
Qed.

Lemma string_app_assoc (a b c : string) : (a +:+ b) +:+ c = a +:+ b +:+ c.
Proof.
  induction a as [| x a IH]; [reflexivity |].
  now rewrite !PyStrFacts.app_cons, IH.
Qed.

Lemma contains_slash_cons (c : ascii) (s : string) :
  contains "/" (String c s) = Ascii.eqb "/" c || contains "/" s.
Proof.
  cbn [contains].
  change (startswith "/" (String c s)) with (Ascii.eqb "/" c && true).
  now rewrite andb_true_r.
Qed.

Lemma contains_slash_app (a b : string) :
  contains "/" (a +:+ b) = contains "/" a || contains "/" b.
Proof.
  induction a as [| c a IH].
  - change (EmptyString +:+ b) with b. destruct b; reflexivity.
  - rewrite PyStrFacts.app_cons, !contains_slash_cons, IH. apply orb_assoc.
Qed.

Lemma last_segment_from_no_slash (s : string) :
  forall cur, contains "/" cur = false ->
              contains "/" (last_segment_from cur s) = false.
Proof.
  induction s as [| c s IH]; intros cur Hcur; [exact Hcur |].
  cbn [last_segment_from]. destruct (Ascii.eqb_spec c "/") as [-> | Hc].
  - now apply IH.
  - apply IH. rewrite contains_slash_app, Hcur, contains_slash_cons.
    cbn [orb contains startswith]. rewrite orb_false_r.
    apply Ascii.eqb_neq. congruence.
Qed.

Lemma ends_with_slash_cons (c : ascii) (s : string) :
  ends_with_slash (String c s) =
  match s with EmptyString => Ascii.eqb c "/" | _ => ends_with_slash s end.
Proof. now destruct s. Qed.

Lemma ends_with_slash_app (a b : string) :
  b <> EmptyString -> ends_with_slash (a +:+ b) = ends_with_slash b.
Proof.
  intros Hb. induction a as [| c a IH]; [reflexivity |].
  rewrite PyStrFacts.app_cons, ends_with_slash_cons, IH.
  destruct (a +:+ b) eqn:Hab; [| reflexivity].
  destruct a; [change (EmptyString +:+ b) with b in Hab; congruence |].
  rewrite PyStrFacts.app_cons in Hab. discriminate Hab.
Qed.

Lemma ends_with_slash_uint (d : Decimal.uint) :
  ends_with_slash (NilEmpty.string_of_uint d) = false.
Proof.
  induction d; cbn [NilEmpty.string_of_uint]; [reflexivity | ..];
    rewrite ends_with_slash_cons;
    (destruct (NilEmpty.string_of_uint d); [reflexivity | assumption]).
Qed.

Lemma str_shape (n : Z) :
  str n <> EmptyString /\ startswith "/" (str n) = false /\
  ends_with_slash (str n) = false.
Proof.
  unfold str. destruct (Z.to_int n) as [d | d].
  - cbn [NilZero.string_of_int]. unfold NilZero.string_of_uint.
    destruct d; try (split; [discriminate | split; [reflexivity |]]);
      try reflexivity;
      match goal with
      | |- ends_with_slash (NilEmpty.string_of_uint ?d) = false =>
          apply (ends_with_slash_uint d)
      end.
  - cbn [NilZero.string_of_int]. split; [discriminate | split; [reflexivity |]].
    rewrite ends_with_slash_cons. unfold NilZero.string_of_uint.
    destruct d; try reflexivity;
      match goal with
      | |- match NilEmpty.string_of_uint ?d with _ => _ end = false =>
          pose proof (ends_with_slash_uint d) as H;
          destruct (NilEmpty.string_of_uint d) eqn:E; [discriminate E | exact H]
      end.
Qed.

End ScrapperMore.

Module ScrapperExtra.
Import Scrapper PyStr ScrapperFacts ScrapperMore.

(** X1.  [save_metadata] on a store that can be read, the missing file
    included: the call returns, a reader then finds the former records
    followed by the new one, and no other file and no line is touched. *)
Theorem save_metadata_appends (m : entry) (st : State) (old : list entry) :
  read_metadata_file (disk st) = Ok old ->
  let st' := exec (save_metadata m) st in
  result (save_metadata m) st = Ok tt /\
  result load_existing_metadata st' = Ok (old ++ [m]) /\
  (forall p, p <> metadata_path -> disk st' !! p = disk st !! p) /\
  stdout st' = stdout st.
Proof.
  intros Hold st'. unfold st', result, exec.
  rewrite (save_metadata_exec m st old Hold). cbn [fst snd disk stdout].
  unfold load_existing_metadata. cbn [fst disk].
  rewrite read_metadata_file_insert. repeat split.
  intros p Hp. now apply lookup_insert_ne.
Qed.

Lemma save_metadata_appends_witness :
  read_metadata_file (disk Sample.empty_state) = Ok [] /\
  result load_existing_metadata
         (exec (save_metadata Sample.item_record) Sample.empty_state)
  = Ok [Sample.item_record].
Proof.
  split; [reflexivity |].
  exact (proj1 (proj2 (save_metadata_appends Sample.item_record
                         Sample.empty_state [] eq_refl))).
Defined.

(** X2.  A metadata file that is not JSON: [save_metadata] raises and
    [is_already_downloaded] raises, so [process_paper], whatever the page,
    requests no artifact and leaves the disk as it was; it still returns. *)
Theorem unreadable_store_stops_harvest
        (w : World) (page : string) (m : entry) (st : State) (content : string) :
  disk st !! metadata_path = Some (Blob content) ->
  save_metadata m st = (Raise JSONDecodeError, st) /\
  (forall u, is_already_downloaded u st = (Raise JSONDecodeError, st)) /\
  result (process_paper w page) st = Ok tt /\
  disk (exec (process_paper w page) st) = disk st /\
  downloads (stdout (exec (process_paper w page) st)) = downloads (stdout st).
Proof.
  intros Hblob.
  assert (Hread : read_metadata_file (disk st) = Raise JSONDecodeError)
    by (unfold read_metadata_file; now rewrite Hblob).
  split; [| split; [| split; [apply process_paper_result |]]].
  - unfold save_metadata, load_existing_metadata, bind. now rewrite Hread.
  - intros u. unfold is_already_downloaded, load_existing_metadata, bind.
    now rewrite Hread.
  - destruct (process_paper_outcome w page st) as (evs & Hlog & _ & Hcases).
    destruct Hcases as [[Hdisk Hdl] | (soup & href & old & _ & _ & Hold & _)];
      [| congruence].
    split; [exact Hdisk |]. rewrite Hlog, downloads_app, Hdl. apply app_nil_r.
Qed.

Lemma unreadable_store_stops_harvest_witness :
  disk Sample.unreadable_store !! metadata_path = Some (Blob "not json") /\
  disk (exec (process_paper
                (Sample.catalog Sample.with_authors (Response 200 Sample.pdf_body))
                Sample.item_url) Sample.unreadable_store)
  = disk Sample.unreadable_store.
Proof.
  split; [reflexivity |].
  exact (proj1 (proj2 (proj2 (proj2 (unreadable_store_stops_harvest
           (Sample.catalog Sample.with_authors (Response 200 Sample.pdf_body))
           Sample.item_url Sample.item_record Sample.unreadable_store "not json"
           eq_refl))))).
Defined.

(** X3.  [is_already_downloaded] on a store that can be read changes
    nothing and answers true exactly when some record has the given URL
    under ["url"] and a ["file_path"] that is not empty; a record with an
    empty path never counts. *)
Theorem is_already_downloaded_contract (u : string) (st : State) (l : list entry) :
  read_metadata_file (disk st) = Ok l ->
  exec (is_already_downloaded u) st = st /\
  (result (is_already_downloaded u) st = Ok true <->
     exists e, In e l /\ url e = u /\ file_path e <> "") /\
  (Forall (fun e => file_path e = "") l ->
     result (is_already_downloaded u) st = Ok false).
Proof.
  intros Hl. split; [| split].
  - unfold exec, is_already_downloaded, load_existing_metadata, bind, ret.
    now rewrite Hl.
  - now apply is_already_downloaded_true.
  - intros Hempty.
    unfold result, is_already_downloaded, load_existing_metadata, bind, ret.
    cbn [fst]. rewrite Hl. cbn [fst]. f_equal.
    clear Hl. induction Hempty as [| e rest He _ IH]; [reflexivity |].
    cbn [existsb]. rewrite IH. unfold matches. rewrite He. reflexivity.
Qed.

Lemma is_already_downloaded_contract_witness :
  read_metadata_file (disk Sample.registered)
  = Ok (stored (disk Sample.registered)) /\
  result (is_already_downloaded Sample.pdf_url) Sample.registered = Ok true.
Proof.
  split; [reflexivity |].
  apply (proj1 (proj2 (is_already_downloaded_contract
                         Sample.pdf_url Sample.registered _ eq_refl))).
  eexists. split; [left; reflexivity |]. split; [reflexivity | discriminate].
Defined.


(** X5.  Whatever the page, the catalog and the state, [process_paper]
    returns, makes at most one request and only ever appends to the store:
    a store that could be read can be read afterwards and holds the former
    records followed by none or one, the one being a record for this page
    with a non-empty path and no label, written only after a request; a
    store that could not be read is not repaired.  No file is touched but
    the store and a destination in the year folder of the page. *)
Theorem process_paper_append_only (w : World) (page : string) (st : State) :
  let st' := exec (process_paper w page) st in
  result (process_paper w page) st = Ok tt /\
  exists requested new,
    downloads (stdout st') = downloads (stdout st) ++ requested /\
    read_metadata_file (disk st') =
      match read_metadata_file (disk st) with
      | Ok old => Ok (old ++ new)
      | Raise e => Raise e
      end /\
    Forall (fresh_record page) new /\
    (length new <= length requested <= 1)%nat /\
    forall p, p <> metadata_path ->
              (forall u, p <> file_path_of (year_of page) u) ->
              disk st' !! p = disk st !! p.
Proof.
  intros st'. split; [apply process_paper_result |].
  destruct (process_paper_step w page st)
    as (evs & new & Hlog & _ & Hread & Hnew & Hlen & Hone).
  fold st' in Hlog, Hread. exists (downloads evs), new.
  rewrite Hlog, downloads_app. repeat split; try assumption.
  intros p Hmeta Hdest.
  destruct (process_paper_outcome w page st) as (evs' & _ & _ & Hcases).
  fold st' in Hcases.
  destruct Hcases as [[Hdisk _] | (soup & href & old & _ & _ & _ & _ & _ & Hcases)];
    [now rewrite Hdisk |].
  cbv zeta in Hcases.
  assert (Hd2 : disk_after_download w (BASE_URL +:+ href)
                  (file_path_of (year_of page) (BASE_URL +:+ href)) (disk st) !! p
                = disk st !! p).
  { unfold disk_after_download.
    destruct (get_artifact w (BASE_URL +:+ href)) as [msg | code body];
      [reflexivity |].
    destruct code as [| c | c]; try reflexivity.
    repeat (destruct c as [c | c |]; try reflexivity).
    apply lookup_insert_ne. intros H. exact (Hdest _ (eq_sym H)). }
  destruct Hcases as [Hdisk | [text Hdisk]]; rewrite Hdisk; [exact Hd2 |].
  rewrite lookup_insert_ne by congruence. exact Hd2.
Qed.

(** X6.  A page that cannot be fetched, or that has no artifact link: no
    artifact is requested and the disk is as it was. *)
Theorem process_paper_without_link (w : World) (page : string) (st : State) :
  (forall soup, get_page w page = Page soup -> select_one_pdf soup = None) ->
  let st' := exec (process_paper w page) st in
  disk st' = disk st /\ downloads (stdout st') = downloads (stdout st).
Proof.
  intros Hnone st'.
  destruct (process_paper_outcome w page st) as (evs & Hlog & _ & Hcases).
  fold st' in Hlog, Hcases.
  destruct Hcases as [[Hdisk Hdl] | (soup & href & old & Hpage & Hlink & _)].
  - split; [exact Hdisk |]. rewrite Hlog, downloads_app, Hdl. apply app_nil_r.
  - rewrite (Hnone soup Hpage) in Hlink. discriminate Hlink.
Qed.

Lemma process_paper_without_link_witness :
  disk (exec (process_paper
                (Sample.catalog Sample.with_authors (Response 200 Sample.pdf_body))
                Sample.year_url) Sample.empty_state)
  = disk Sample.empty_state.
Proof.
  refine (proj1 (process_paper_without_link
                   (Sample.catalog Sample.with_authors (Response 200 Sample.pdf_body))
                   Sample.year_url Sample.empty_state _)).
  intros soup [= <-]. reflexivity.
Defined.

(** X7.  A page with an "Authors" heading whose artifact link
    [is_already_downloaded] flags: [process_paper] prints that it skips and
    returns; nothing is requested, written or stored. *)
Theorem process_paper_skips_flagged
        (w : World) (page : string) (st : State) (soup : Soup) (h4 : H4Tag)
        (href : string) :
  get_page w page = Page soup ->
  find_h4_Authors soup = Some h4 ->
  select_one_pdf soup = Some href ->
  result (is_already_downloaded (BASE_URL +:+ href)) st = Ok true ->
  process_paper w page st =
    (Ok tt, {| disk := disk st;
               stdout := stdout st ++ [Processing_paper_page page;
                                       Skipping_already_downloaded (BASE_URL +:+ href)] |}).
Proof.
  intros Hpage Hh4 Hlink Hflag.
  unfold result, is_already_downloaded, load_existing_metadata, bind, ret in Hflag.
  cbn [fst] in Hflag.
  destruct (read_metadata_file (disk st)) as [old | err] eqn:Hold;
    cbn [fst] in Hflag; [| discriminate Hflag].
  injection Hflag as Hflag.
  unfold process_paper, process_paper_try, is_already_downloaded,
    load_existing_metadata, bind, try_except, print, modify, ret, raise.
  cbn [snd disk stdout]. rewrite Hpage, Hh4, Hlink. cbn [snd disk stdout].
  rewrite Hold. cbn [snd disk stdout]. rewrite Hflag. cbn [snd disk stdout].
  now rewrite <- app_assoc.
Qed.

Lemma process_paper_skips_flagged_witness :
  result (is_already_downloaded Sample.pdf_url) Sample.registered = Ok true /\
  exec (process_paper
          (Sample.catalog Sample.with_authors (Response 200 Sample.pdf_body))
          Sample.item_url) Sample.registered
  = {| disk := disk Sample.registered;
       stdout := [Processing_paper_page Sample.item_url;
                  Skipping_already_downloaded Sample.pdf_url] |}.
Proof.
  split; [reflexivity |]. unfold exec.
  rewrite (process_paper_skips_flagged
             (Sample.catalog Sample.with_authors (Response 200 Sample.pdf_body))
             Sample.item_url Sample.registered
             (Sample.item_soup Sample.with_authors)
             {| find_next_sibling_p :=
                  Some {| find_i := Some "A. Author, B. Writer" |} |}
             Sample.pdf_href eq_refl eq_refl eq_refl eq_refl).
  reflexivity.
Defined.

(** X8.  The year [process_paper] reads off a page URL is an integer from
    0 to 9999, and 0 when the URL has no [/paper_files/paper/dddd/] part. *)
Theorem year_of_range (url : string) :
  0 <= year_of url <= 9999 /\
  (contains year_prefix url = false -> year_of url = 0).
Proof.
  assert (Hdigit : forall c, isdigit c = true -> 0 <= digit_value c <= 9).
  { intros c. unfold isdigit, digit_value. intros H.
    apply andb_prop in H as [H1 H2]. apply N.leb_le in H1, H2. lia. }
  assert (Hhere : forall s y, match_year_here s = Some y ->
                              0 <= y <= 9999 /\ startswith year_prefix s = true).
  { intros s y. unfold match_year_here.
    destruct (startswith year_prefix s); [| discriminate].
    destruct (drop _ s) as [| a [| b [| c [| d [| e rest]]]]]; try discriminate.
    destruct (isdigit a) eqn:Ha; [| discriminate].
    destruct (isdigit b) eqn:Hb; [| discriminate].
    destruct (isdigit c) eqn:Hc; [| discriminate].
    destruct (isdigit d) eqn:Hd; [| discriminate].
    cbn [andb]. destruct (Ascii.eqb e "/"); [| discriminate].
    intros [= <-]. apply Hdigit in Ha, Hb, Hc, Hd. split; [lia | reflexivity]. }
  assert (Hmatch : forall s y, year_match s = Some y ->
                               0 <= y <= 9999 /\ contains year_prefix s = true).
  { induction s as [| c s IH]; intros y; cbn [year_match contains].
    - destruct (match_year_here EmptyString) eqn:H; [| discriminate].
      intros [= <-]. destruct (Hhere _ _ H) as [Hy Hs]. now rewrite Hs.
    - destruct (match_year_here (String c s)) eqn:H.
      + intros [= <-]. destruct (Hhere _ _ H) as [Hy Hs]. now rewrite Hs.
      + intros Hrest. destruct (IH _ Hrest) as [Hy Hs]. rewrite Hs.
        split; [exact Hy | apply orb_true_r]. }
  unfold year_of. destruct (year_match url) as [y |] eqn:Hy.
  - destruct (Hmatch _ _ Hy) as [Hrange Hs]. split; [exact Hrange | congruence].
  - split; [lia | reflexivity].
Qed.

(** X9.  The destination of an artifact is [NeurIPS_Papers], the year in
    decimal and the last segment of the artifact URL, joined by slashes; the
    segment holds no slash, so the file lies directly in the year folder, and
    two artifact URLs with the same last segment share a destination. *)
Theorem file_path_layout (y : Z) (u : string) :
  file_path_of y u = "NeurIPS_Papers/" +:+ str y +:+ "/" +:+ last_segment u /\
  contains "/" (last_segment u) = false /\
  forall u', last_segment u' = last_segment u -> file_path_of y u' = file_path_of y u.
Proof.
  destruct (str_shape y) as (Hne & Hstart & Hend).
  assert (Hseg : contains "/" (last_segment u) = false)
    by now apply last_segment_from_no_slash.
  assert (Hfolder : year_folder_of y = "NeurIPS_Papers/" +:+ str y).
  { unfold year_folder_of, os_path_join. now rewrite Hstart. }
  split; [| split; [exact Hseg |]].
  - unfold file_path_of, os_path_join.
    destruct (startswith "/" (last_segment u)) eqn:Hs.
    + destruct (last_segment u) as [| c s]; [discriminate Hs |].
      cbn [contains] in Hseg. rewrite Hs in Hseg. discriminate Hseg.
    + rewrite Hfolder, ends_with_slash_app, Hend by exact Hne.
      replace (truthy ("NeurIPS_Papers/" +:+ str y)) with true by reflexivity.
      cbn [negb orb]. apply string_app_assoc.
  - intros u' Hsame. unfold file_path_of. now rewrite Hsame.
Qed.

(** X10.  Whatever the year page, [process_year] returns and prints the
    page once.  It only ever appends to the store, records with a non-empty
    path and no label; it stores no more records than it makes requests and
    makes no more requests than the year page has item links, none when the
    year page cannot be fetched. *)
Theorem process_year_append_only (w : World) (year_url : string) (st : State) :
  let st' := exec (process_year w year_url) st in
  result (process_year w year_url) st = Ok tt /\
  exists evs new,
    stdout st' = stdout st ++ evs /\
    year_pages evs = [year_url] /\
    read_metadata_file (disk st') =
      match read_metadata_file (disk st) with
      | Ok old => Ok (old ++ new)
      | Raise e => Raise e
      end /\
    Forall (fun e => truthy (file_path e) = true /\ annotation e = None) new /\
    (length new <= length (downloads evs))%nat /\
    (length (downloads evs) <=
       match get_page w year_url with
       | Page soup => length (select_html soup)
       | PageFailure _ => 0
       end)%nat.
Proof. apply process_year_step. Qed.

(** X23.  A harvest that goes well.  For a page whose authors are found
    and whose artifact link is not flagged, when the artifact answers 200:
    the body is written at the destination, one record is appended whose
    ["url"] is the URL of the page and whose ["file_path"] is that
    destination, and exactly four lines are printed. *)
Theorem process_paper_harvests
        (w : World) (page : string) (st : State) (soup : Soup) (h4 : H4Tag)
        (p : PTag) (text href body : string) :
  get_page w page = Page soup ->
  find_h4_Authors soup = Some h4 ->
  find_next_sibling_p h4 = Some p ->
  find_i p = Some text ->
  select_one_pdf soup = Some href ->
  result (is_already_downloaded (BASE_URL +:+ href)) st = Ok false ->
  get_artifact w (BASE_URL +:+ href) = Response 200 body ->
  let pdf_url := BASE_URL +:+ href in
  let path := file_path_of (year_of page) pdf_url in
  let m := metadata_for w soup page text href in
  process_paper w page st =
    (Ok tt,
     {| disk := <[metadata_path := JsonRecords (records st ++ [m])]>
                  (<[path := Blob body]> (disk st));
        stdout := stdout st ++ [Processing_paper_page page; Found_PDF pdf_url;
                                Downloading pdf_url; Saved path] |}) /\
  url m = page /\ file_path m = path /\ annotation m = None /\
  disk (exec (process_paper w page) st) !! path = Some (Blob body).
Proof.
  intros Hpage Hh4 Hp Hi Hlink Hdedup H200 pdf_url path m.
  apply is_already_downloaded_false in Hdedup as [Hold Hnew].
  assert (Hrun : process_paper w page st =
    (Ok tt,
     {| disk := <[metadata_path := JsonRecords (records st ++ [m])]>
                  (<[path := Blob body]> (disk st));
        stdout := stdout st ++ [Processing_paper_page page; Found_PDF pdf_url;
                                Downloading pdf_url; Saved path] |})).
  { rewrite (process_paper_new_artifact w page st soup h4 href (records st)
               Hpage Hh4 Hlink Hold Hnew).
    rewrite Hp. cbn [mbind option_bind]. rewrite Hi. unfold try_except.
    fold pdf_url path.
    rewrite (download_pdf_200 w pdf_url path body _ H200). cbn [disk stdout].
    rewrite (save_metadata_exec _ _ (records st)).
    - cbn [disk stdout]. rewrite <- !app_assoc. reflexivity.
    - cbn [disk]. rewrite read_metadata_file_insert_ne
        by apply file_path_of_ne_metadata_path.
      exact Hold. }
  split; [exact Hrun |]. repeat split.
  unfold exec. rewrite Hrun. cbn [snd disk].
  rewrite lookup_insert_ne
    by (intros H; exact (file_path_of_ne_metadata_path _ _ (eq_sym H))).
  apply lookup_insert_eq.
Qed.

Lemma process_paper_harvests_witness :
  let w := Sample.catalog Sample.with_authors (Response 200 Sample.pdf_body) in
  let st := exec (process_paper w Sample.item_url) Sample.empty_state in
  get_artifact w Sample.pdf_url = Response 200 Sample.pdf_body /\
  disk st !! Sample.pdf_path = Some (Blob Sample.pdf_body).
Proof.
  split; [reflexivity |].
  exact (proj2 (proj2 (proj2 (proj2 (process_paper_harvests
           (Sample.catalog Sample.with_authors (Response 200 Sample.pdf_body))
           Sample.item_url Sample.empty_state
           (Sample.item_soup Sample.with_authors)
           {| find_next_sibling_p :=
                Some {| find_i := Some "A. Author, B. Writer" |} |}
           {| find_i := Some "A. Author, B. Writer" |}
           "A. Author, B. Writer" Sample.pdf_href Sample.pdf_body
           eq_refl eq_refl eq_refl eq_refl eq_refl eq_refl eq_refl))))).
Defined.

End ScrapperExtra.

(** ** The choice of the year pages *)

Module MainFacts.
Import Scrapper PyStr ScrapperFacts ScrapperMore.

Lemma string_length_app (a b : string) :
  String.length (a +:+ b) = (String.length a + String.length b)%nat.
Proof.
  induction a as [| c a IH]; [reflexivity |].
  rewrite PyStrFacts.app_cons. cbn [String.length]. now rewrite IH.
Qed.

Lemma filter_isdigit_app (a b : string) :
  filter_isdigit (a +:+ b) = filter_isdigit a +:+ filter_isdigit b.
Proof.
  induction a as [| c a IH]; [reflexivity |].
  rewrite PyStrFacts.app_cons. cbn [filter_isdigit].
  destruct (str_isdigit c); [now rewrite PyStrFacts.app_cons, IH | exact IH].
Qed.

Lemma decimal_app (a b : string) : decimal (a +:+ b) = decimal a && decimal b.
Proof.
  induction a as [| c a IH]; [reflexivity |].
  rewrite PyStrFacts.app_cons. cbn [decimal]. now rewrite IH, andb_assoc.
Qed.

Lemma digit_value_range (c : ascii) : isdigit c = true -> 0 <= digit_value c <= 9.
Proof.
  unfold isdigit, digit_value. intros H.
  apply andb_prop in H as [H1 H2]. apply N.leb_le in H1, H2. lia.
Qed.

Lemma decimal_value_nonneg (s : string) :
  forall acc, decimal s = true -> 0 <= acc -> 0 <= decimal_value acc s.
Proof.
  induction s as [| c s IH]; intros acc Hs Hacc; [exact Hacc |].
  cbn [decimal] in Hs. apply andb_prop in Hs as [Hc Hs].
  cbn [decimal_value]. apply IH; [exact Hs |].
  pose proof (digit_value_range c Hc). lia.
Qed.

Lemma decimal_value_app (a b : string) :
  forall acc, decimal_value acc (a +:+ b) = decimal_value (decimal_value acc a) b.
Proof.
  induction a as [| c a IH]; intros acc; [reflexivity |].
  rewrite PyStrFacts.app_cons. cbn [decimal_value]. apply IH.
Qed.

Lemma decimal_value_shift (s : string) :
  forall acc,
    decimal_value acc s = acc * 10 ^ Z.of_nat (String.length s) + decimal_value 0 s.
Proof.
  induction s as [| c s IH]; intros acc.
  - cbn [decimal_value String.length]. change (10 ^ Z.of_nat 0) with 1. lia.
  - cbn [decimal_value String.length].
    rewrite (IH (10 * acc + digit_value c)), (IH (10 * 0 + digit_value c)).
    rewrite Nat2Z.inj_succ, Z.pow_succ_r by lia. lia.
Qed.

Lemma filter_isdigit_idem (s : string) :
  filter_isdigit (filter_isdigit s) = filter_isdigit s.
Proof.
  induction s as [| c s IH]; [reflexivity |].
  cbn [filter_isdigit]. destruct (str_isdigit c) eqn:Hc; [| exact IH].
  cbn [filter_isdigit]. now rewrite Hc, IH.
Qed.

(** [extract_year_from_url] on a URL whose digits are decimal and few. *)
Lemma extract_year_short (int : string -> option Z) (url : string) :
  py_int_contract int ->
  decimal (filter_isdigit url) = true ->
  (String.length (filter_isdigit url) <= 640)%nat ->
  extract_year_from_url int url = decimal_value 0 (filter_isdigit url).
Proof.
  intros Hint Hdec Hlen. unfold extract_year_from_url.
  destruct (filter_isdigit url) as [| c s] eqn:Hf.
  - destruct (int EmptyString) as [n |] eqn:Hn; [| reflexivity].
    now destruct (int_sound int Hint _ _ eq_refl Hn) as [H _].
  - now rewrite (int_short int Hint (String c s)).
Qed.

Lemma int_unlimited_contract : py_int_contract int_unlimited.
Proof.
  split.
  - intros s n _. unfold int_unlimited. destruct s as [| c s]; [discriminate |].
    destruct (decimal (String c s)); [| discriminate].
    intros [= <-]. now repeat split.
  - intros s Hne Hdec _. unfold int_unlimited.
    destruct s; [congruence | now rewrite Hdec].
Qed.

Lemma first_occurrences_contract : set_contract Sample.first_occurrences.
Proof.
  intros l. induction l as [| x l [IHnd IHin]]; [split; [constructor | reflexivity] |].
  cbn [Sample.first_occurrences fold_right].
  fold (Sample.first_occurrences l). split.
  - constructor.
    + rewrite list_elem_of_In, filter_In. intros [_ H].
      now rewrite String.eqb_refl in H.
    + apply NoDup_ListNoDup, List.NoDup_filter, NoDup_ListNoDup, IHnd.
  - intros y. cbn [In]. rewrite filter_In, IHin. split.
    + intros [-> | [H _]]; [now left | now right].
    + intros [-> | H]; [now left |].
      destruct (String.eqb_spec x y) as [-> | Hne]; [now left | right; now split].
Qed.

(** *** [sorted] *)

Lemma insert_reverse_perm (key : string -> Z) (x : string) (l : list string) :
  Permutation (insert_reverse key x l) (x :: l).
Proof.
  induction l as [| y l IH]; [reflexivity |].
  cbn [insert_reverse]. destruct (key x <? key y); [| reflexivity].
  rewrite IH. apply perm_swap.
Qed.

Lemma sorted_reverse_perm (key : string -> Z) (l : list string) :
  Permutation (sorted_reverse key l) l.
Proof.
  induction l as [| x l IH]; [reflexivity |].
  cbn [sorted_reverse]. now rewrite insert_reverse_perm, IH.
Qed.

Lemma insert_reverse_sorted (key : string -> Z) (x : string) (l : list string) :
  StronglySorted (fun a b => key b <= key a) l ->
  StronglySorted (fun a b => key b <= key a) (insert_reverse key x l).
Proof.
  induction 1 as [| y l Hl IH Hy]; cbn [insert_reverse].
  - repeat constructor.
  - destruct (Z.ltb_spec (key x) (key y)) as [Hlt | Hge].
    + constructor; [exact IH |].
      rewrite insert_reverse_perm. constructor; [lia | exact Hy].
    + constructor; [now constructor |].
      constructor; [exact Hge |].
      eapply Forall_impl; [exact Hy |]. intros z Hz. cbn beta in *. lia.
Qed.

Lemma sorted_reverse_sorted (key : string -> Z) (l : list string) :
  StronglySorted (fun a b => key b <= key a) (sorted_reverse key l).
Proof.
  induction l as [| x l IH]; [constructor |].
  now apply insert_reverse_sorted.
Qed.

Lemma strongly_sorted_app (R : string -> string -> Prop) (l1 l2 : list string) :
  StronglySorted R (l1 ++ l2) ->
  StronglySorted R l1 /\ forall a b, In a l1 -> In b l2 -> R a b.
Proof.
  induction l1 as [| x l1 IH]; cbn [app]; intros H.
  - split; [constructor | intros a b []].
  - inversion H as [| ? ? Hrest Hx]; subst.
    destruct (IH Hrest) as [Hl1 Hcross]. split.
    + constructor; [exact Hl1 |].
      rewrite Forall_app in Hx. now destruct Hx.
    + intros a b [<- | Ha] Hb; [| now apply Hcross].
      rewrite Forall_forall in Hx. apply Hx. rewrite list_elem_of_In.
      apply in_or_app. now right.
Qed.

(** *** [main] *)




End MainFacts.

Module MainExtra.
Import Scrapper PyStr ScrapperFacts ScrapperMore MainFacts.

(** X11.  [extract_year_from_url] is never negative.  It is 0 for a URL
    without a digit, and 0 as well when one of the characters that pass
    [str.isdigit] is not a decimal digit (a superscript), since [int] then
    raises. *)
Theorem extract_year_from_url_floor (int : string -> option Z) (url : string) :
  py_int_contract int ->
  0 <= extract_year_from_url int url /\
  (filter_isdigit url = EmptyString -> extract_year_from_url int url = 0) /\
  (decimal (filter_isdigit url) = false -> extract_year_from_url int url = 0).
Proof.
  intros Hint. unfold extract_year_from_url.
  destruct (int (filter_isdigit url)) as [n |] eqn:Hn.
  - destruct (int_sound int Hint _ _ (filter_isdigit_idem url) Hn)
      as (Hne & Hdec & ->).
    split; [now apply decimal_value_nonneg |]. split; congruence.
  - repeat split; lia.
Qed.

Lemma extract_year_from_url_floor_witness :
  py_int_contract int_unlimited /\
  extract_year_from_url int_unlimited "https://papers.nips.cc/paper_files/paper/about" = 0.
Proof.
  split; [exact int_unlimited_contract |].
  exact (proj1 (proj2 (extract_year_from_url_floor int_unlimited
                         "https://papers.nips.cc/paper_files/paper/about"
                         int_unlimited_contract))
               eq_refl).
Defined.

(** X12.  [extract_year_from_url] reads all the decimal digits of the URL
    as one number, wherever they stand: for two pieces with at most 640
    digits together, the year of the whole is the year of the first shifted
    by the digits of the second, plus the year of the second.  So a piece
    without digits changes nothing, and a digit anywhere else in the URL
    changes the year. *)
Theorem extract_year_from_url_concat (int : string -> option Z) (a b : string) :
  py_int_contract int ->
  decimal (filter_isdigit a) = true ->
  decimal (filter_isdigit b) = true ->
  (String.length (filter_isdigit a) + String.length (filter_isdigit b) <= 640)%nat ->
  extract_year_from_url int (a +:+ b) =
    extract_year_from_url int a * 10 ^ Z.of_nat (String.length (filter_isdigit b))
    + extract_year_from_url int b.
Proof.
  intros Hint Ha Hb Hlen.
  rewrite (extract_year_short int (a +:+ b) Hint), (extract_year_short int a Hint),
    (extract_year_short int b Hint); try assumption; try lia.
  - rewrite filter_isdigit_app, decimal_value_app. apply decimal_value_shift.
  - rewrite filter_isdigit_app, decimal_app, Ha, Hb. reflexivity.
  - rewrite filter_isdigit_app, string_length_app. exact Hlen.
Qed.

Lemma extract_year_from_url_concat_witness :
  extract_year_from_url int_unlimited ("https://papers.nips.cc/paper/2024" +:+ "/v2")
  = 20242.
Proof.
  rewrite (extract_year_from_url_concat int_unlimited
             "https://papers.nips.cc/paper/2024" "/v2" int_unlimited_contract).
  - vm_compute. reflexivity.
  - reflexivity.
  - reflexivity.
  - vm_compute. lia.
Defined.

(** X13.  The year pages [main] selects, whatever order the set is
    iterated in: at most five, each one a link of the root and none twice,
    by decreasing year; no link left out has a greater year than one
    selected, and with five distinct links or fewer none is left out. *)
Theorem latest_year_urls_selects (site : Site) (hrefs : list string) :
  set_contract (set_iteration site) ->
  let key := extract_year_from_url (py_int site) in
  let links := map (fun href => BASE_URL +:+ href) hrefs in
  let latest := latest_year_urls site hrefs in
  (length latest <= 5)%nat /\
  NoDup latest /\
  (forall u, In u latest -> In u links) /\
  StronglySorted (fun a b => key b <= key a) latest /\
  (forall u v, In u latest -> In v links -> ~ In v latest -> key v <= key u) /\
  ((length (set_iteration site links) <= 5)%nat ->
     forall v, In v links -> In v latest).
Proof.
  intros Hset key links latest.
  destruct (Hset links) as [Hnodup Hin].
  set (sorted := sorted_reverse key (set_iteration site links)).
  assert (Hperm : Permutation sorted (set_iteration site links))
    by apply sorted_reverse_perm.
  assert (Hsplit : sorted = latest ++ skipn 5 sorted)
    by (symmetry; apply firstn_skipn).
  assert (Hsorted : StronglySorted (fun a b => key b <= key a) sorted)
    by apply sorted_reverse_sorted.
  rewrite Hsplit in Hsorted. apply strongly_sorted_app in Hsorted as [Hlatest Hcross].
  assert (Hall : forall v, In v links -> In v latest \/ In v (skipn 5 sorted)).
  { intros v Hv. apply in_app_or. rewrite <- Hsplit.
    rewrite <- list_elem_of_In, Hperm, list_elem_of_In. now apply Hin. }
  split; [apply length_firstn_le || (unfold latest, latest_year_urls;
                                     rewrite length_firstn; lia) |].
  split.
  { rewrite <- Hperm, Hsplit in Hnodup. now apply NoDup_app in Hnodup as [H _]. }
  split.
  { intros u Hu. apply Hin. rewrite <- list_elem_of_In, <- Hperm, list_elem_of_In.
    rewrite Hsplit. apply in_or_app. now left. }
  split; [exact Hlatest |]. split.
  - intros u v Hu Hv Hout. destruct (Hall v Hv) as [H | H]; [contradiction |].
    now apply Hcross.
  - intros Hfew v Hv. destruct (Hall v Hv) as [H | H]; [exact H |].
    rewrite skipn_all2 in H; [destruct H |].
    rewrite (Permutation_length Hperm). exact Hfew.
Qed.

Lemma latest_year_urls_selects_witness :
  set_contract (set_iteration Sample.site) /\
  (length (latest_year_urls Sample.site Sample.root_hrefs) <= 5)%nat /\
  latest_year_urls Sample.site Sample.root_hrefs
  = ["https://papers.nips.cc/paper_files/paper/2024";
     "https://papers.nips.cc/paper_files/paper/2023";
     "https://papers.nips.cc/paper_files/paper/2022";
     "https://papers.nips.cc/paper_files/paper/2021";
     "https://papers.nips.cc/paper_files/paper/2020"].
Proof.
  split; [exact first_occurrences_contract |].
  split; [| reflexivity].
  exact (proj1 (latest_year_urls_selects Sample.site Sample.root_hrefs
                  first_occurrences_contract)).
Defined.


End MainExtra.

(** ** More about annotator.py *)

Module AnnotatorMore.
Import Annotator PyStr AnnotatorFacts.

(** The sleeps of the backoff add up to a power of two. *)
Lemma delays_sum (k : nat) :
  forall first,
    fold_right Z.add 0 (delays first k)
    = 2 ^ Z.of_nat (S first) * (2 ^ Z.of_nat k - 1).
Proof.
  unfold delays, API_RETRY_DELAY.
  induction k as [| k IH]; intros first.
  - cbn [seq map fold_right]. change (2 ^ Z.of_nat 0) with 1. lia.
  - cbn [seq map fold_right]. rewrite IH.
    rewrite !Nat2Z.inj_succ, !Z.pow_succ_r by lia. nia.
Qed.

(** The state [retry_loop] leaves is fixed by the number [k] of attempts
    that met a rate-limit error: [k] sleeps, the first [k] of the backoff,
    and [k] calls, or one more when a later attempt ended the loop. *)
Lemma retry_loop_shape (w : World) (prompt : string) (n : nat) :
  forall first st,
    exists value k calls,
      retry_loop w prompt (seq first n) st =
        (Ok value, {| disk := disk st; api_calls := api_calls st + calls;
                      slept := slept st ++ delays first k |}) /\
      (k <= calls <= n)%nat /\ (calls <= k + 1)%nat /\
      ((0 < n)%nat -> (1 <= calls)%nat).
Proof.
  induction n as [| n IH]; intros first st.
  - exists "Unknown", 0%nat, 0%nat. cbn [seq retry_loop]. unfold ret, delays.
    cbn [seq map]. rewrite app_nil_r, Nat.add_0_r.
    split; [now destruct st |]. lia.
  - cbn [seq retry_loop]. unfold bind.
    destruct (rate_limited (generate_content w (api_calls st) prompt)) eqn:Hlim.
    + rewrite attempt_once_limited by exact Hlim.
      destruct (IH (S first)
                  {| disk := disk st; api_calls := S (api_calls st);
                     slept := slept st ++ [API_RETRY_DELAY * 2 ^ Z.of_nat first] |})
        as (value & k & calls & Hrun & Hk & Hc & _).
      exists value, (S k), (S calls). rewrite Hrun. cbn [disk api_calls slept].
      split; [| lia]. unfold delays. cbn [seq map]. rewrite <- app_assoc. cbn [app].
      f_equal; f_equal; lia.
    + rewrite attempt_once_settled by exact Hlim.
      eexists _, 0%nat, 1%nat. unfold ret, delays. cbn [seq map].
      rewrite app_nil_r. split; [| lia]. f_equal; f_equal; lia.
Qed.

Lemma annotate_text_shape (w : World) (text : string) (st : State) :
  exists a st',
    annotate_text w text st = (Ok a, st') /\
    disk st' = disk st /\
    (api_calls st < api_calls st' <= api_calls st + API_RETRY_LIMIT)%nat.
Proof.
  destruct (retry_loop_shape w (prompt_of text) API_RETRY_LIMIT 0 st)
    as (value & k & calls & Hrun & Hk & Hc & Hpos).
  eexists _, _. split; [exact Hrun |]. cbn [disk api_calls].
  split; [reflexivity |]. unfold API_RETRY_LIMIT in *. lia.
Qed.

(** One round of the loop of [annotate_papers], with the calls it makes. *)
Lemma annotate_entry_budget (w : World) (metadata : list entry) (i : nat)
      (e : entry) (st : State) :
  metadata !! i = Some e ->
  exists a st',
    annotate_entry w metadata i st =
      (Ok (<[i := set_annotation a e]> metadata), st') /\
    disk st' = disk st /\
    (api_calls st <= api_calls st' <= api_calls st + API_RETRY_LIMIT)%nat.
Proof.
  intros He.
  destruct (extraction_fails w (disk st) (file_path e)) eqn:Hfail.
  - exists "Unknown", st. rewrite (annotate_entry_failed w _ _ e) by assumption.
    repeat split; lia.
  - unfold extraction_fails in Hfail. apply orb_false_elim in Hfail as [Hvalid Hdoc].
    apply negb_false_iff in Hvalid.
    destruct (page_texts w (disk st) (file_path e)) as [doc |] eqn:Hpages;
      [| discriminate].
    rewrite (annotate_entry_read w _ _ e st doc He Hvalid Hpages).
    destruct (annotate_text_shape w
                (if truthy (excerpt doc) then excerpt doc else "No text found") st)
      as (a & st1 & Hrun & Hdisk & Hcalls).
    exists a. eexists. unfold bind. rewrite Hrun. cbn [sleep modify ret].
    split; [reflexivity |]. cbn [disk api_calls]. split; [exact Hdisk | lia].
Qed.

Lemma annotate_loop_budget (w : World) (l : list entry) :
  forall (pre : list entry) (st : State),
    exists l' st',
      annotate_loop w (unannotated_from (length pre) l) (pre ++ l) st
        = (Ok (pre ++ l'), st') /\
      disk st' = disk st /\
      (api_calls st <= api_calls st' <=
         api_calls st + API_RETRY_LIMIT * length (unannotated_from (length pre) l))%nat.
Proof.
  induction l as [| e rest IH]; intros pre st.
  - exists [], st. cbn [unannotated_from annotate_loop length].
    repeat split; lia.
  - cbn [unannotated_from]. destruct (annotation e) as [a |] eqn:Hlabel.
    + destruct (IH (pre ++ [e]) st) as (l' & st' & Hrun & Hd' & Hcalls).
      rewrite length_app in Hrun, Hcalls. cbn [length] in Hrun, Hcalls.
      rewrite Nat.add_1_r in Hrun, Hcalls. rewrite <- app_assoc in Hrun.
      cbn [app] in Hrun.
      exists (e :: l'), st'. rewrite Hrun, <- app_assoc. cbn [app].
      repeat split; [exact Hd' | lia | lia].
    + cbn [annotate_loop]. unfold bind at 1.
      assert (He : (pre ++ e :: rest) !! length pre = Some e)
        by now apply list_lookup_middle.
      destruct (annotate_entry_budget w _ _ e st He)
        as (a & st1 & Hrun1 & Hd1 & Hcalls1).
      rewrite Hrun1.
      rewrite insert_app_r_alt, Nat.sub_diag by lia. cbn [insert list_insert].
      destruct (IH (pre ++ [set_annotation a e]) st1)
        as (l' & st' & Hrun & Hd' & Hcalls).
      rewrite length_app in Hrun, Hcalls. cbn [length] in Hrun, Hcalls.
      rewrite Nat.add_1_r in Hrun, Hcalls. rewrite <- app_assoc in Hrun.
      cbn [app] in Hrun.
      exists (set_annotation a e :: l'), st'. rewrite Hrun, <- app_assoc. cbn [app].
      cbn [length]. repeat split; [congruence | lia | lia].
Qed.

Lemma unannotated_from_labelled (l : list entry) :
  Forall (fun e => is_Some (annotation e)) l ->
  forall i, unannotated_from i l = [].
Proof.
  induction 1 as [| e rest [a Ha] _ IH]; intros i; [reflexivity |].
  cbn [unannotated_from]. rewrite Ha. apply IH.
Qed.

Lemma pass_effect_labels (w : World) (d : gmap string file) (l l' : list entry) :
  Forall2 (pass_effect w d) l l' -> Forall (fun e => is_Some (annotation e)) l'.
Proof.
  induction 1 as [| e e' l l' He _ IH]; constructor; [| exact IH].
  unfold pass_effect in He. destruct (annotation e) as [a |] eqn:Ha.
  - subst e'. rewrite Ha. eauto.
  - destruct He as (a & -> & _). cbn [set_annotation annotation]. eauto.
Qed.

(** A pass over a store where nothing waits for a label. *)
Lemma annotate_papers_nothing_to_do (w : World) (st : State) :
  Forall (fun e => is_Some (annotation e)) (records st) ->
  exec (annotate_papers w) st = st.
Proof.
  unfold records, stored, exec, annotate_papers. unfold bind at 1.
  unfold load_metadata.
  destruct (read_metadata_file (disk st)) as [l | err]; [| reflexivity].
  intros Hall. destruct l as [| e rest]; [reflexivity |].
  now rewrite (unannotated_from_labelled _ Hall).
Qed.

Lemma take_min (n : nat) (doc : list string) :
  firstn (Nat.min n (length doc)) doc = firstn n doc.
Proof.
  destruct (Nat.le_ge_cases n (length doc)) as [H | H].
  - now rewrite Nat.min_l.
  - rewrite Nat.min_r by exact H. now rewrite firstn_all, firstn_all2.
Qed.

End AnnotatorMore.

Module AnnotatorExtra.
Import Annotator PyStr AnnotatorFacts AnnotatorMore.

(** X15.  [call_gemini_with_retry], whatever the classifier does and
    whatever the limit: it returns; it leaves the disk alone; it calls the
    classifier at most [max_retries] times, and at least once when that is
    not zero; it sleeps once for every call that met a rate-limit error, for
    2, 4, 8, ... seconds in this order, at most one call going without a
    sleep; its sleeps add up to [2 * (2^k - 1)] seconds for [k] of them. *)
Theorem call_gemini_with_retry_budget
        (w : World) (prompt : string) (max_retries : nat) (st : State) :
  exists value k calls,
    call_gemini_with_retry w prompt max_retries st =
      (Ok value, {| disk := disk st; api_calls := api_calls st + calls;
                    slept := slept st ++ delays 0 k |}) /\
    (k <= calls <= max_retries)%nat /\ (calls <= k + 1)%nat /\
    ((0 < max_retries)%nat -> (1 <= calls)%nat) /\
    fold_right Z.add 0 (delays 0 k) = 2 * (2 ^ Z.of_nat k - 1).
Proof.
  destruct (retry_loop_shape w prompt max_retries 0 st)
    as (value & k & calls & Hrun & Hk & Hc & Hpos).
  exists value, k, calls. repeat split; try assumption; try lia.
  rewrite delays_sum. change (2 ^ Z.of_nat 1) with 2. reflexivity.
Qed.

(** X16.  What [call_gemini_with_retry] makes of an answer that is no
    label, after [k < 5] rate-limit errors: a response that is false in a
    condition gives ["Unknown"], and a response whose text is white space
    gives the empty string, not ["Unknown"]. *)
Theorem call_gemini_with_retry_blank
        (w : World) (prompt : string) (st : State) (k : nat) :
  (k < API_RETRY_LIMIT)%nat ->
  (forall i, (i < k)%nat ->
     rate_limited (generate_content w (api_calls st + i) prompt) = true) ->
  (generate_content w (api_calls st + k) prompt = Answer None ->
     result (call_gemini_with_retry w prompt API_RETRY_LIMIT) st = Ok "Unknown") /\
  (forall text,
     generate_content w (api_calls st + k) prompt = Answer (Some text) ->
     strip text = "" ->
     result (call_gemini_with_retry w prompt API_RETRY_LIMIT) st = Ok "").
Proof.
  intros Hk Hlim. split.
  - intros Hans. unfold result, call_gemini_with_retry.
    rewrite (retry_loop_settles w prompt k 0 API_RETRY_LIMIT st Hk Hlim)
      by now rewrite Hans.
    now rewrite Hans.
  - intros text Hans Hblank. unfold result, call_gemini_with_retry.
    rewrite (retry_loop_settles w prompt k 0 API_RETRY_LIMIT st Hk Hlim)
      by now rewrite Hans.
    rewrite Hans. cbn [fst returned_for]. now rewrite Hblank.
Qed.

Lemma call_gemini_with_retry_blank_witness :
  result (call_gemini_with_retry (Sample.throttled 1 (Answer (Some "   ")))
                                 "prompt" API_RETRY_LIMIT) Sample.harvested
  = Ok "".
Proof.
  refine (proj2 (call_gemini_with_retry_blank
                   (Sample.throttled 1 (Answer (Some "   "))) "prompt"
                   Sample.harvested 1 _ _) "   " eq_refl eq_refl).
  - unfold API_RETRY_LIMIT. lia.
  - intros [| i] Hi; [reflexivity | lia].
Defined.

(** X17.  [extract_text_from_pdf] never raises and changes nothing.  It
    returns the empty string exactly when the extraction fails (the file is
    missing or empty, or PyMuPDF raises); a document that opens gives its
    excerpt, or the placeholder when the excerpt is empty.  The excerpt is
    that of the first three pages: later pages are not read. *)
Theorem extract_text_from_pdf_contract (w : World) (path : string) (st : State) :
  exists text,
    extract_text_from_pdf w path st = (Ok text, st) /\
    (text = "" <-> extraction_fails w (disk st) path = true) /\
    (forall doc,
       valid_pdf (disk st) path = true -> page_texts w (disk st) path = Some doc ->
       text = (if truthy (excerpt doc) then excerpt doc else "No text found") /\
       excerpt doc = excerpt (firstn 3 doc)).
Proof.
  destruct (extraction_fails w (disk st) path) eqn:Hfail.
  - exists "". rewrite extract_text_failed by exact Hfail.
    split; [reflexivity |]. split; [now split |].
    intros doc Hvalid Hdoc. unfold extraction_fails in Hfail.
    rewrite Hvalid, Hdoc in Hfail. discriminate Hfail.
  - unfold extraction_fails in Hfail. apply orb_false_elim in Hfail as [Hvalid Hdoc].
    apply negb_false_iff in Hvalid.
    destruct (page_texts w (disk st) path) as [doc |] eqn:Hpages; [| discriminate].
    eexists. rewrite (extract_text_read w path st doc Hvalid Hpages).
    split; [reflexivity |]. split.
    + split; [| discriminate].
      destruct (truthy (excerpt doc)) eqn:Ht; [| discriminate].
      intros H. rewrite H in Ht. discriminate Ht.
    + intros doc' _ [= <-]. split; [reflexivity |].
      unfold excerpt. now rewrite !take_min, firstn_firstn.
Qed.

(** X18.  After a pass of [annotate_papers] every record of the store has
    a label, and a second pass, with any reader and any classifier, changes
    nothing: no call, no sleep, no write. *)
Theorem annotate_papers_second_pass (w w' : World) (st : State) :
  let st' := exec (annotate_papers w) st in
  Forall (fun e => is_Some (annotation e)) (records st') /\
  exec (annotate_papers w') st' = st'.
Proof.
  intros st'.
  assert (Hall : Forall (fun e => is_Some (annotation e)) (records st'))
    by (eapply pass_effect_labels, annotate_papers_effect).
  split; [exact Hall | now apply annotate_papers_nothing_to_do].
Qed.

(** X19.  A pass over a store where no record waits for a label, the
    empty and the missing store among them, changes nothing: the metadata
    file is not written, not even created, and the classifier is not
    called. *)
Theorem annotate_papers_without_unlabelled (w : World) (st : State) :
  Forall (fun e => is_Some (annotation e)) (records st) ->
  annotate_papers w st =
    (match read_metadata_file (disk st) with
     | Ok _ => Ok tt
     | Raise e => Raise e
     end, st).
Proof.
  unfold records, stored, annotate_papers. unfold bind at 1. unfold load_metadata.
  destruct (read_metadata_file (disk st)) as [l | err]; [| reflexivity].
  intros Hall. destruct l as [| e rest]; [reflexivity |].
  now rewrite (unannotated_from_labelled _ Hall).
Qed.

Lemma annotate_papers_without_unlabelled_witness :
  let st := {| disk := {[ metadata_path :=
                            JsonRecords [set_annotation "Unknown" Sample.other_record] ]};
               api_calls := 0; slept := [] |} in
  annotate_papers Sample.blank_pages st = (Ok tt, st).
Proof.
  refine (annotate_papers_without_unlabelled Sample.blank_pages
            {| disk := {[ metadata_path :=
                            JsonRecords [set_annotation "Unknown" Sample.other_record] ]};
               api_calls := 0; slept := [] |} _).
  constructor; [eexists; reflexivity | constructor].
Defined.

(** X20.  A pass of [annotate_papers] over a store that can be read
    returns, makes at most five calls of the classifier for each record
    without a label, and writes the metadata file only: every other file is
    as it was.  Over a store that cannot be read it raises and changes
    nothing. *)
Theorem annotate_papers_budget (w : World) (st : State) :
  let st' := exec (annotate_papers w) st in
  result (annotate_papers w) st =
    match read_metadata_file (disk st) with
    | Ok _ => Ok tt
    | Raise e => Raise e
    end /\
  (api_calls st <= api_calls st' <=
     api_calls st + 5 * length (unannotated_from 0 (records st)))%nat /\
  (forall p, p <> metadata_path -> disk st' !! p = disk st !! p) /\
  (forall e, read_metadata_file (disk st) = Raise e -> st' = st).
Proof.
  intros st'. subst st'.
  unfold result, exec, records, stored, annotate_papers, bind, load_metadata.
  destruct (read_metadata_file (disk st)) as [l | err]; lazy beta iota;
    cbn [fst snd].
  2:{ cbn [unannotated_from length]. repeat split; lia. }
  destruct l as [| e rest].
  { cbn [ret fst snd unannotated_from length]. repeat split; try lia; try discriminate. }
  remember (e :: rest) as l eqn:Hl.
  destruct (unannotated_from 0 l) as [| i idx] eqn:Hidx.
  { cbn [ret fst snd length]. repeat split; try lia; try discriminate. }
  destruct (annotate_loop_budget w l [] st) as (l' & st1 & Hrun & Hd1 & Hcalls).
  cbn [length app] in Hrun, Hcalls. rewrite Hidx in Hrun, Hcalls.
  rewrite Hrun. cbn [save_metadata modify fst snd disk api_calls].
  unfold API_RETRY_LIMIT in Hcalls.
  repeat split; try lia; try discriminate.
  intros p Hp. rewrite lookup_insert_ne by congruence. now rewrite Hd1.
Qed.

(** X21.  The prompt holds the first 1000 characters of the text and no
    more: it is 233 characters longer than what it takes of the text, and
    two texts that agree on their first 1000 characters are classified by
    the same calls. *)
Theorem prompt_of_truncates (w : World) (text : string) :
  prompt_of text = prompt_of (take 1000 text) /\
  String.length (prompt_of text)
    = (233 + Nat.min 1000 (String.length text))%nat /\
  annotate_text w text = annotate_text w (take 1000 text).
Proof.
  assert (Htake : forall n s, take n (take n s) = take n s).
  { induction n as [| n IH]; intros s; [reflexivity |].
    destruct s as [| c s]; [reflexivity |]. cbn [take]. now rewrite IH. }
  assert (Hlen : forall n s, String.length (take n s) = Nat.min n (String.length s)).
  { induction n as [| n IH]; intros s; [reflexivity |].
    destruct s as [| c s]; [reflexivity |]. cbn [take String.length].
    now rewrite IH. }
  assert (Happ : forall a b, String.length (a +:+ b)
                             = (String.length a + String.length b)%nat).
  { induction a as [| c a IH]; intros b; [reflexivity |].
    change (String c a +:+ b) with (String c (a +:+ b)).
    cbn [String.length]. now rewrite IH. }
  assert (Hprompt : prompt_of text = prompt_of (take 1000 text))
    by (unfold prompt_of; now rewrite Htake).
  split; [exact Hprompt |]. split.
  - unfold prompt_of. rewrite !Happ, Hlen.
    repeat match goal with
           | |- context [String.length ?s] =>
               lazymatch s with
               | context [text] => fail
               | _ => let n := eval vm_compute in (String.length s) in
                      change (String.length s) with n
               end
           end.
    lia.
  - unfold annotate_text. now rewrite Hprompt.
Qed.

(** X24.  A round of the loop that goes well.  For a record whose
    document opens with an excerpt that is not empty, when the classifier
    answers the first call: the label is the answer stripped of white space
    at both ends, whether or not it is one of the five labels; one call is
    made, on the prompt of the excerpt, and the round sleeps for two
    seconds. *)
Theorem annotate_entry_classifies
        (w : World) (metadata : list entry) (i : nat) (e : entry) (st : State)
        (doc : list string) (answer : string) :
  metadata !! i = Some e ->
  valid_pdf (disk st) (file_path e) = true ->
  page_texts w (disk st) (file_path e) = Some doc ->
  truthy (excerpt doc) = true ->
  generate_content w (api_calls st) (prompt_of (excerpt doc)) = Answer (Some answer) ->
  annotate_entry w metadata i st =
    (Ok (<[i := set_annotation (strip answer) e]> metadata),
     {| disk := disk st; api_calls := S (api_calls st);
        slept := slept st ++ [2] |}).
Proof.
  intros He Hvalid Hdoc Htext Hans.
  rewrite (annotate_entry_read w _ _ e st doc He Hvalid Hdoc), Htext.
  unfold bind, annotate_text, call_gemini_with_retry.
  rewrite (retry_loop_settles w (prompt_of (excerpt doc)) 0 0 API_RETRY_LIMIT st).
  - rewrite Nat.add_0_r, Hans. cbn [returned_for sleep modify ret disk api_calls slept].
    unfold delays. cbn [seq map]. rewrite app_nil_r.
    do 3 f_equal. lia.
  - unfold API_RETRY_LIMIT. lia.
  - intros j Hj. lia.
  - now rewrite Nat.add_0_r, Hans.
Qed.

Lemma annotate_entry_classifies_witness :
  annotate_entry (Sample.throttled 0 (Answer (Some " Quantum Physics ")))
                 [Sample.item_record] 0 Sample.harvested
  = (Ok [set_annotation "Quantum Physics" Sample.item_record],
     {| disk := disk Sample.harvested; api_calls := 1; slept := [2] |}).
Proof.
  exact (annotate_entry_classifies
           (Sample.throttled 0 (Answer (Some " Quantum Physics ")))
           [Sample.item_record] 0 Sample.item_record Sample.harvested
           ["Some text."] " Quantum Physics "
           eq_refl eq_refl eq_refl eq_refl eq_refl).
Defined.

End AnnotatorExtra.

(** ** The two scripts, one after the other *)

Module PipelineExtra.
Import PyStr.

(** X22.  A harvest whose download failed, then a pass of the annotator
    on the disk it left: when no file stood at the destination, the record
    of the page is labelled ["Unknown"], whatever the reader and the
    classifier. *)
Theorem failed_download_labelled_unknown
        (w : Scrapper.World) (page : string) (st : Scrapper.State)
        (soup : Scrapper.Soup) (h4 : Scrapper.H4Tag) (p : Scrapper.PTag)
        (text href : string) (wa : Annotator.World) (s : Annotator.State) :
  Scrapper.get_page w page = Scrapper.Page soup ->
  Scrapper.find_h4_Authors soup = Some h4 ->
  Scrapper.find_next_sibling_p h4 = Some p ->
  Scrapper.find_i p = Some text ->
  Scrapper.select_one_pdf soup = Some href ->
  Scrapper.result
    (Scrapper.is_already_downloaded (Scrapper.BASE_URL +:+ href)) st = Ok false ->
  Scrapper.download_failed
    (Scrapper.get_artifact w (Scrapper.BASE_URL +:+ href)) = true ->
  Scrapper.disk st !! Scrapper.file_path_of (Scrapper.year_of page)
                        (Scrapper.BASE_URL +:+ href) = None ->
  Annotator.disk s = Scrapper.disk (Scrapper.exec (Scrapper.process_paper w page) st) ->
  Annotator.records (Annotator.exec (Annotator.annotate_papers wa) s)
    !! length (Scrapper.records st)
  = Some (set_annotation "Unknown" (Scrapper.metadata_for w soup page text href)).
Proof.
  intros Hpage Hh4 Hp Hi Hlink Hdedup Hfail Hfree Hs.
  apply ScrapperFacts.is_already_downloaded_false in Hdedup as [Hold Hnew].
  assert (Hdisk : Annotator.disk s =
            <[metadata_path :=
                JsonRecords (Scrapper.records st ++
                               [Scrapper.metadata_for w soup page text href])]>
              (Scrapper.disk st)).
  { rewrite Hs. unfold Scrapper.exec.
    rewrite (ScrapperFacts.process_paper_new_artifact w page st soup h4 href
               (Scrapper.records st) Hpage Hh4 Hlink Hold Hnew).
    rewrite Hp. cbn [mbind option_bind]. rewrite Hi. unfold try_except.
    erewrite ScrapperFacts.save_metadata_exec.
    - cbn [snd Scrapper.disk].
      rewrite ScrapperFacts.download_pdf_failed by exact Hfail. reflexivity.
    - rewrite ScrapperFacts.download_pdf_failed by exact Hfail. exact Hold. }
  set (m := Scrapper.metadata_for w soup page text href) in *.
  assert (Hm : Annotator.records s !! length (Scrapper.records st) = Some m).
  { unfold Annotator.records. rewrite Hdisk, ScrapperFacts.stored_insert.
    now apply list_lookup_middle. }
  assert (Hfails : Annotator.extraction_fails wa (Annotator.disk s) (file_path m) = true).
  { unfold Annotator.extraction_fails, Annotator.valid_pdf.
    rewrite Hdisk, lookup_insert_ne.
    - cbn [file_path m Scrapper.metadata_for]. now rewrite Hfree.
    - intros H. symmetry in H.
      exact (ScrapperFacts.file_path_of_ne_metadata_path _ _ H). }
  destruct (Forall2_lookup_l _ _ _ _ m
              (AnnotatorFacts.annotate_papers_effect wa s) Hm) as (e' & He' & Heff).
  unfold Annotator.pass_effect in Heff. cbn [annotation m Scrapper.metadata_for] in Heff.
  destruct Heff as (a & -> & Ha). now rewrite (Ha Hfails) in He'.
Qed.

Lemma failed_download_labelled_unknown_witness :
  let w := Sample.catalog Sample.with_authors (Scrapper.Response 500 "") in
  let st := Scrapper.exec (Scrapper.process_paper w Sample.item_url) Sample.empty_state in
  Annotator.records
    (Annotator.exec (Annotator.annotate_papers Sample.blank_pages)
       {| Annotator.disk := Scrapper.disk st; Annotator.api_calls := 0;
          Annotator.slept := [] |}) !! 0%nat
  = Some (set_annotation "Unknown" Sample.item_record).
Proof.
  exact (failed_download_labelled_unknown
           (Sample.catalog Sample.with_authors (Scrapper.Response 500 ""))
           Sample.item_url Sample.empty_state
           (Sample.item_soup Sample.with_authors)
           {| Scrapper.find_next_sibling_p :=
                Some {| Scrapper.find_i := Some "A. Author, B. Writer" |} |}
           {| Scrapper.find_i := Some "A. Author, B. Writer" |}
           "A. Author, B. Writer" Sample.pdf_href Sample.blank_pages
           {| Annotator.disk :=
                Scrapper.disk
                  (Scrapper.exec
                     (Scrapper.process_paper
                        (Sample.catalog Sample.with_authors (Scrapper.Response 500 ""))
                        Sample.item_url) Sample.empty_state);
              Annotator.api_calls := 0; Annotator.slept := [] |}
           eq_refl eq_refl eq_refl eq_refl eq_refl eq_refl eq_refl eq_refl eq_refl).
Defined.

End PipelineExtra.
